(** * puppeteer-renderer: the rendering gateway and its two-pass PDF service

    A shallow embedding of [src/unnamed/part_000] (the [Renderer] class with
    the two-pass [pdf] operation and [mergePdfs]) and of the two gateway
    variants kept in [src/src/index.js]: the query-based endpoint
    (lines 1-157) and the cache-backed raw-HTML endpoint (lines 158-369).

    The headless browser, pdf-lib, the WHATWG URL parser, the
    content-disposition package and the JavaScript coercions are external
    to the repository; they enter the development as the fields of the
    [Runtime] class, and every theorem holds for every runtime. *)

From Stdlib Require Import ZArith QArith Qround String Ascii List.
From stdpp Require Import base option list strings gmap.

Local Close Scope Q_scope.
Local Open Scope string_scope.
Local Open Scope Z_scope.
Local Set Warnings "-register-all".

(** ** JavaScript values *)

(** A JavaScript number: NaN, an infinity, or a finite double (every finite
    double is a rational). *)
Inductive number :=
| NaN
| Infty (negative : bool)
| Fin (q : Q).

(** Values that travel through the gateway: query parameters parsed by [qs]
    (strings, arrays, nested objects), JSON bodies, option bags. *)
Inductive value :=
| VUndefined
| VNull
| VBool (b : bool)
| VNum (n : number)
| VStr (s : string)
| VArr (items : list value)
| VObj (fields : gmap string value).

Abbreviation object := (gmap string value).

(** What a JavaScript computation can throw: a [TypeError] raised by the
    language itself, or whatever an external library threw. *)
Inductive error :=
| TypeError (msg : string)
| Thrown (payload : value).

Inductive result (A : Type) :=
| Ok (a : A)
| Throw (e : error).
Arguments Ok {A} a.
Arguments Throw {A} e.

Definition number_of_Z (z : Z) : number := Fin (inject_Z z).

(** ToBoolean on numbers: [0] and [NaN] are falsy. *)
Definition number_truthy (n : number) : bool :=
  match n with
  | NaN => false
  | Infty _ => true
  | Fin q => negb (Qeq_bool q (inject_Z 0))
  end.

(** [n > 0]. *)
Definition number_gt0 (n : number) : bool :=
  match n with
  | NaN => false
  | Infty negative => negb negative
  | Fin q => negb (Qle_bool q (inject_Z 0))
  end.

(** ToBoolean. *)
Definition truthy (v : value) : bool :=
  match v with
  | VUndefined | VNull => false
  | VBool b => b
  | VNum n => number_truthy n
  | VStr s => negb (String.eqb s "")
  | VArr _ | VObj _ => true
  end.

(** [v != null]: neither [null] nor [undefined]. *)
Definition not_nullish (v : value) : bool :=
  match v with
  | VUndefined | VNull => false
  | _ => true
  end.

(** [v === "lit"] for a string literal. *)
Definition strict_eq_str (v : value) (lit : string) : bool :=
  match v with
  | VStr s => String.eqb s lit
  | _ => false
  end.

(** [a || b]. *)
Definition js_or (a b : value) : value := if truthy a then a else b.

(** [o[k]] on an object: a missing property reads as [undefined]. *)
Definition get (o : object) (k : string) : value := default VUndefined (o !! k).

(** [const { k = d } = o]: the default applies when the property is
    [undefined], also when it is present with that value. *)
Definition get_default (o : object) (k : string) (d : value) : value :=
  match get o k with
  | VUndefined => d
  | v => v
  end.

(** A parameter default, [f(x = d)]. *)
Definition param_default (x d : value) : value :=
  match x with
  | VUndefined => d
  | v => v
  end.

(** [v.k] for a property name [k] that no built-in prototype defines
    ([footerTemplate], [html], ...): reading it from [null] or [undefined]
    throws, a primitive or an array without it gives [undefined]. *)
Definition get_prop (v : value) (k : string) : result value :=
  match v with
  | VUndefined => Throw (TypeError ("Cannot read properties of undefined (reading '" ++ k ++ "')"))
  | VNull => Throw (TypeError ("Cannot read properties of null (reading '" ++ k ++ "')"))
  | VObj o => Ok (get o k)
  | _ => Ok VUndefined
  end.

(** ** Strings *)

Module Str.

(** [s.split(c)] for a one-character separator; never empty. *)
Fixpoint split (c : ascii) (s : string) : list string :=
  match s with
  | EmptyString => [EmptyString]
  | String a rest =>
      if Ascii.eqb a c then EmptyString :: split c rest
      else match split c rest with
           | [] => [String a EmptyString]
           | hd :: tl => String a hd :: tl
           end
  end.

(** [arr.pop()] read as a value: the last element. *)
Definition pop (l : list string) : string := List.last l EmptyString.

(** [s.replace(/c/g, "")]. *)
Fixpoint remove_all (c : ascii) (s : string) : string :=
  match s with
  | EmptyString => EmptyString
  | String a rest =>
      if Ascii.eqb a c then remove_all c rest else String a (remove_all c rest)
  end.

(** [s.lastIndexOf(c)] for a one-character needle, [-1] when absent. *)
Fixpoint lastIndexOf (c : ascii) (s : string) : Z :=
  match s with
  | EmptyString => -1
  | String a rest =>
      let r := lastIndexOf c rest in
      if 0 <=? r then r + 1
      else if Ascii.eqb a c then 0 else -1
  end.

(** [s.substring(0, n)] for [0 <= n]. *)
Definition prefix (n : Z) (s : string) : string := String.substring 0 (Z.to_nat n) s.

(** ASCII lower-casing; URL host names and path names are ASCII. *)
Definition lower_ascii (a : ascii) : ascii :=
  let n := nat_of_ascii a in
  if ((65 <=? n) && (n <=? 90))%nat then ascii_of_nat (n + 32) else a.

Fixpoint toLowerCase (s : string) : string :=
  match s with
  | EmptyString => EmptyString
  | String a rest => String (lower_ascii a) (toLowerCase rest)
  end.

(** [s.endsWith(suffix)]. *)
Definition endsWith (suffix s : string) : bool :=
  let n := String.length s in
  let k := String.length suffix in
  if (k <=? n)%nat then String.eqb (String.substring (n - k)%nat k s) suffix else false.

(** [s.includes(needle)]. *)
Fixpoint includes (needle s : string) : bool :=
  if String.prefix needle s then true
  else match s with
       | EmptyString => false
       | String _ rest => includes needle rest
       end.


End Str.

(** ** The external world *)

(** A page session handle of the browser. *)
Definition Page := nat.

(** An encoded document or image. *)
Definition Buffer := list Byte.byte.

(** One page of a decoded PDF document (what [copyPages] copies). *)
Definition PdfPage := list Byte.byte.

(** What [new URL(s)] exposes to the gateway. *)
Record URL := { hostname : string; pathname : string }.

(** The calls of pdf-lib made by [mergePdfs]. *)
Inductive pdflib_op :=
| Create
| Load (bytes : Buffer)
| CopyPages (index : nat)
| AddPage
| Save.

(** Every call that leaves the repository's code, in the order made. *)
Inductive call :=
| BrowserNewPage
| PageOn (page : Page) (event : string)
| PageSetRequestInterception (page : Page) (enabled : bool)
| PageEmulateMediaType (page : Page) (media : value)
| PageAuthenticate (page : Page) (credentials : value)
| PageGoto (page : Page) (url : value) (opts : object)
| PageContent (page : Page)
| PagePdf (page : Page) (opts : object)
| PageSetViewport (page : Page) (opts : object)
| WaitForAnimations (page : Page) (opts : object) (timeout : number)
| PageScreenshot (page : Page) (opts : object)
| PageIsClosed (page : Page)
| PageClose (page : Page)
| PdfLib (op : pdflib_op).

(** The collaborators of the service. The browser is an arbitrary
    deterministic machine over its own state [World]: any call may succeed
    or throw, and may change that state. [waitForAnimations] is the
    repository's [./wait-for-animations] module, which is not among the
    sources; it is taken as one more opaque call. *)
Class Runtime := {
  World : Type;
  (* ECMAScript ToNumber and ToString on values that are not yet one. *)
  ToNumber : value -> number;
  ToString : value -> string;
  (* puppeteer *)
  browser_newPage : World -> result Page * World;
  page_setRequestInterception : Page -> bool -> World -> World;
  page_emulateMediaType : Page -> value -> World -> result unit * World;
  page_authenticate : Page -> value -> World -> result unit * World;
  page_goto : Page -> value -> object -> World -> result unit * World;
  page_content : Page -> World -> result string * World;
  page_pdf : Page -> object -> World -> result Buffer * World;
  page_setViewport : Page -> object -> World -> World;
  page_screenshot : Page -> object -> World -> result Buffer * World;
  page_isClosed : Page -> World -> result bool * World;
  page_close : Page -> World -> result unit * World;
  waitForAnimations : Page -> object -> number -> World -> result unit * World;
  (* pdf-lib: decoding a buffer into its pages, encoding pages *)
  pdf_load : Buffer -> result (list PdfPage);
  pdf_save : list PdfPage -> Buffer;
  (* url, content-disposition *)
  url_parse : string -> result URL;
  contentDisposition : string -> value -> result string
}.

(** ** The monad of the service: browser state, call trace, exceptions *)

Record state `{Runtime} := State { world : World; trace : list call }.

Definition M `{Runtime} (A : Type) : Type := state -> result A * state.

Definition ret `{Runtime} {A} (a : A) : M A := fun st => (Ok a, st).

Definition throw `{Runtime} {A} (e : error) : M A := fun st => (Throw e, st).

Definition bind `{Runtime} {A B} (m : M A) (k : A -> M B) : M B :=
  fun st =>
    match m st with
    | (Ok a, st') => k a st'
    | (Throw e, st') => (Throw e, st')
    end.

#[export] Instance M_ret `{Runtime} : MRet M := @ret _.
#[export] Instance M_bind `{Runtime} : MBind M := fun A B k m => bind m k.

(** A pure partial computation, such as a property read. *)
Definition lift `{Runtime} {A} (r : result A) : M A := fun st => (r, st).

(** An awaited external call: logged, answered by the runtime. *)
Definition perform `{Runtime} {A} (c : call) (f : World -> result A * World) : M A :=
  fun st =>
    let '(r, w) := f (world st) in
    (r, State _ w (trace st ++ [c])).

(** An external call whose promise is dropped: whatever it settles to is
    never observed by the caller. *)
Definition fire `{Runtime} (c : call) (f : World -> World) : M unit :=
  fun st => (Ok tt, State _ (f (world st)) (trace st ++ [c])).

(** [try { x = m } catch (ex) { return h ex } ; k x]. *)
Definition try_catch `{Runtime} {A B} (m : M B) (h : error -> M A) (k : B -> M A) : M A :=
  fun st =>
    match m st with
    | (Ok b, st') => k b st'
    | (Throw e, st') => h e st'
    end.

(** [try { body } finally { finalizer }]: a finalizer that throws replaces
    the outcome of the body. *)
Definition try_finally `{Runtime} {A} (body : M A) (finalizer : M unit) : M A :=
  fun st =>
    let '(r, st1) := body st in
    match finalizer st1 with
    | (Ok _, st2) => (r, st2)
    | (Throw e, st2) => (Throw e, st2)
    end.

Definition run `{Runtime} {A} (m : M A) (w : World) : result A * state :=
  m (State _ w []).

(** [Number(v)]. *)
Definition Number `{Runtime} (v : value) : number :=
  match v with
  | VNum n => n
  | _ => ToNumber v
  end.

(** [Number(v) || d] on numbers. *)
Definition number_or (n d : number) : number := if number_truthy n then n else d.

(** ** The Renderer class (src/unnamed/part_000) *)

Module Renderer.

(** [closePage]: everything is inside [try { } catch (e) {}]. *)
Definition closePage `{Runtime} (page : option Page) : M unit :=
  try_catch
    (match page with
     | None => ret tt
     | Some p =>
         closed ← perform (PageIsClosed p) (page_isClosed p);
         if closed : bool then ret tt
         else perform (PageClose p) (page_close p)
     end)
    (fun _ => ret tt)
    (fun _ => ret tt).

(** [createPage]. The two [page.on] handlers are callbacks run by the
    browser; registering them calls nothing outside. [authorization],
    [post] and [postData] are read by the request handler only. *)
Definition createPage `{Runtime} (url : value) (options : object)
    (authorization post postData : value) : M Page :=
  let timeout := get options "timeout" in
  let waitUntil := get options "waitUntil" in
  let credentials := get options "credentials" in
  let emulateMediaType := get options "emulateMediaType" in
  page ← perform BrowserNewPage browser_newPage;
  fire (PageOn page "error") id ;;
  fire (PageSetRequestInterception page true) (page_setRequestInterception page true) ;;
  fire (PageOn page "request") id ;;
  (if truthy emulateMediaType
   then perform (PageEmulateMediaType page emulateMediaType)
                (page_emulateMediaType page emulateMediaType)
   else ret tt) ;;
  (if truthy credentials
   then perform (PageAuthenticate page credentials) (page_authenticate page credentials)
   else ret tt) ;;
  (let opts : object :=
     <["waitUntil" := js_or waitUntil (VStr "networkidle2")]>
     (<["timeout" := VNum (number_or (Number timeout) (number_of_Z (30 * 1000)))]> ∅) in
   perform (PageGoto page url opts) (page_goto page url opts)) ;;
  ret page.

(** [let page = null; try { page = await create; rest } finally
    { this.closePage(page); }]: when [create] throws, [page] is still
    [null] in the finalizer. The promise of [closePage] is dropped; its
    calls are made before the finalizer ends, and it has no rejection to
    lose, since it catches everything. *)
Definition with_page `{Runtime} {A} (create : M Page) (rest : Page -> M A) : M A :=
  fun st =>
    match create st with
    | (Ok page, st') => try_finally (rest page) (closePage (Some page)) st'
    | (Throw e, st') => try_finally (throw e) (closePage None) st'
    end.

(** [{ timeout, waitUntil, credentials }], handed to [createPage]. *)
Definition page_options (options : object) : object :=
  <["credentials" := get options "credentials"]>
  (<["waitUntil" := get options "waitUntil"]>
  (<["timeout" := get options "timeout"]> ∅)).

Definition html `{Runtime} (url : value) (options : object)
    (authorization post body : value) : M string :=
  let authorization := param_default authorization (VStr "") in
  let post := param_default post (VBool true) in
  let body := param_default body (VStr "") in
  with_page
    (createPage url (page_options options) authorization post body)
    (fun page => perform (PageContent page) (page_content page)).

(** [const { timeout, waitUntil, credentials, emulateMediaType,
    ...extraOptions } = options]. *)
Definition pdf_extra_options (options : object) : object :=
  delete "emulateMediaType"
    (delete "credentials" (delete "waitUntil" (delete "timeout" options))).

(** [scale = 1.0] in the destructuring of [extraOptions]. *)
Definition scale_of (extraOptions : object) : value :=
  get_default extraOptions "scale" (VNum (number_of_Z 1)).

(** The argument of the first [page.pdf] of two-pass mode. *)
Definition first_pass_options `{Runtime} (extraOptions : object)
    (footerTemplate footerFirstMarginBottom : value) : object :=
  <["margin" := VObj {["bottom" :=
      if not_nullish footerFirstMarginBottom then footerFirstMarginBottom
      else VStr "35px"]}]>
  (<["footerTemplate" := footerTemplate]>
  (<["pageRanges" := VStr "1"]>
  (<["landscape" := VBool (strict_eq_str (get extraOptions "landscape") "true")]>
  (<["printBackground" := VBool (strict_eq_str (get extraOptions "printBackground") "true")]>
  (<["displayHeaderFooter" := VBool true]>
  (<["scale" := VNum (Number (scale_of extraOptions))]> extraOptions)))))).

(** The argument of the second [page.pdf] of two-pass mode. *)
Definition second_pass_options `{Runtime} (extraOptions : object)
    (footerTemplate footerOtherMarginBottom : value) : object :=
  <["margin" := VObj {["bottom" :=
      if not_nullish footerOtherMarginBottom then footerOtherMarginBottom
      else VStr "78px"]}]>
  (<["footerTemplate" := footerTemplate]>
  (<["pageRanges" := VStr "2-"]>
  (<["displayHeaderFooter" := VBool true]>
  (<["landscape" := VBool (strict_eq_str (get extraOptions "landscape") "true")]>
  (<["printBackground" := VBool (strict_eq_str (get extraOptions "printBackground") "true")]>
  (<["scale" := VNum (Number (scale_of extraOptions))]> extraOptions)))))).

(** The argument of the only [page.pdf] of single-pass mode. *)
Definition single_pass_options `{Runtime} (extraOptions : object) : object :=
  <["landscape" := VBool (strict_eq_str (get extraOptions "landscape") "true")]>
  (<["printBackground" := VBool (strict_eq_str (get extraOptions "printBackground") "true")]>
  (<["displayHeaderFooter" :=
      VBool (strict_eq_str (get extraOptions "displayHeaderFooter") "true")]>
  (<["scale" := VNum (Number (scale_of extraOptions))]> extraOptions))).

(** A call of pdf-lib: logged; it does not touch the browser. *)
Definition pdflib `{Runtime} {A} (op : pdflib_op) (r : result A) : M A :=
  perform (PdfLib op) (fun w => (r, w)).

(** [const [page] = await pdfDoc.copyPages(src, [i])]: pdf-lib throws on
    an index past the last page of [src]. *)
Definition copyPage `{Runtime} (src : list PdfPage) (i : nat) : M PdfPage :=
  pdflib (CopyPages i)
    (match src !! i with
     | Some page => Ok page
     | None => Throw (TypeError "Cannot read properties of undefined (reading 'node')")
     end).

(** [pdfDoc.addPage(page)] appends to the document under construction. *)
Definition addPage `{Runtime} (pdfDoc : list PdfPage) (page : PdfPage) : M (list PdfPage) :=
  pdflib AddPage (Ok (pdfDoc ++ [page])%list).

(** [for (let i = ...; i < mainDoc.getPageCount(); i++)], by recursion on
    the number of iterations left, [getPageCount() - i]. *)
Fixpoint copy_from `{Runtime} (mainDoc : list PdfPage) (left : nat) (i : nat)
    (pdfDoc : list PdfPage) : M (list PdfPage) :=
  match left with
  | O => ret pdfDoc
  | S left' =>
      aMainPage ← copyPage mainDoc i;
      pdfDoc' ← addPage pdfDoc aMainPage;
      copy_from mainDoc left' (S i) pdfDoc'
  end.

Definition mergePdfs `{Runtime} (pdf1 pdf2 : Buffer) : M Buffer :=
  pdfDoc ← pdflib Create (Ok []);
  coverDoc ← pdflib (Load pdf1) (pdf_load pdf1);
  coverPage ← copyPage coverDoc 0;
  pdfDoc ← addPage pdfDoc coverPage;
  mainDoc ← pdflib (Load pdf2) (pdf_load pdf2);
  pdfDoc ← copy_from mainDoc (length mainDoc) 0 pdfDoc;
  pdfBytes ← pdflib Save (Ok (pdf_save pdfDoc));
  ret pdfBytes.

(** What follows [createPage] inside the [try] of [pdf]. [mergePdfs] is
    returned without [await], so in the program the finalizer starts
    while the merge is still pending; the merge does not use the page,
    and the trace lists its calls before those of the finalizer. *)
Definition pdf_render `{Runtime} (page : Page) (extraOptions : object)
    (body : value) : M Buffer :=
  footerTemplate ← lift (get_prop body "footerTemplate");
  footerFirstMarginBottom ← lift (get_prop body "footerFirstMarginBottom");
  footerOtherMarginBottom ← lift (get_prop body "footerOtherMarginBottom");
  if not_nullish footerTemplate then
    let first := first_pass_options extraOptions footerTemplate footerFirstMarginBottom in
    let second := second_pass_options extraOptions footerTemplate footerOtherMarginBottom in
    pdf1 ← perform (PagePdf page first) (page_pdf page first);
    try_catch (perform (PagePdf page second) (page_pdf page second))
      (fun ex => ret pdf1)
      (fun pdf2 => mergePdfs pdf1 pdf2)
  else
    let single := single_pass_options extraOptions in
    buffer ← perform (PagePdf page single) (page_pdf page single);
    ret buffer.

(** The [createPage] call of [pdf], parameter defaults applied. *)
Definition pdf_open `{Runtime} (url : value) (options : object)
    (authorization post body : value) : M Page :=
  createPage url
    (<["emulateMediaType" := js_or (get options "emulateMediaType") (VStr "print")]>
       (page_options options))
    (param_default authorization (VStr ""))
    (param_default post (VBool true))
    (param_default body (VStr "")).

Definition pdf `{Runtime} (url : value) (options : object)
    (authorization post body : value) : M Buffer :=
  with_page
    (pdf_open url options authorization post body)
    (fun page =>
       pdf_render page (pdf_extra_options options) (param_default body (VStr ""))).

(** [const { timeout, waitUntil, credentials, ...extraOptions } = options]. *)
Definition screenshot_extra_options (options : object) : object :=
  delete "credentials" (delete "waitUntil" (delete "timeout" options)).

Definition viewport_options `{Runtime} (extraOptions : object) : object :=
  <["height" := VNum (Number (js_or (get extraOptions "height") (VNum (number_of_Z 600))))]>
  (<["width" := VNum (Number (js_or (get extraOptions "width") (VNum (number_of_Z 800))))]> ∅).

(** [screenshotOptions]. *)
Definition screenshot_options `{Runtime} (extraOptions : object) : object :=
  let fullPage := get extraOptions "fullPage" in
  let omitBackground := get extraOptions "omitBackground" in
  let screenshotType := get extraOptions "screenshotType" in
  let quality := get extraOptions "quality" in
  let restOptions : object :=
    delete "quality" (delete "screenshotType"
      (delete "omitBackground" (delete "fullPage" extraOptions))) in
  <["omitBackground" := VBool (strict_eq_str omitBackground "true")]>
  (<["fullPage" := VBool (strict_eq_str fullPage "true")]>
  (<["quality" := VNum (number_or (Number quality)
      (match screenshotType with
       | VUndefined => number_of_Z 0
       | _ => if strict_eq_str screenshotType "png" then number_of_Z 0
              else number_of_Z 100
       end))]>
  (<["type" := js_or screenshotType (VStr "png")]> restOptions))).

Definition screenshot `{Runtime} (url : value) (options : object)
    (authorization post body : value) : M (value * Buffer) :=
  let authorization := param_default authorization (VStr "") in
  let post := param_default post (VBool true) in
  let body := param_default body (VStr "") in
  let extraOptions := screenshot_extra_options options in
  with_page
    (createPage url (page_options options) authorization post body)
    (fun page =>
       fire (PageSetViewport page (viewport_options extraOptions))
            (page_setViewport page (viewport_options extraOptions)) ;;
       let screenshotOptions := screenshot_options extraOptions in
       let animationTimeout :=
         Number (js_or (get options "animationTimeout") (VNum (number_of_Z 0))) in
       (if number_gt0 animationTimeout
        then perform (WaitForAnimations page screenshotOptions animationTimeout)
                     (waitForAnimations page screenshotOptions animationTimeout)
        else ret tt) ;;
       buffer ← perform (PageScreenshot page screenshotOptions)
                        (page_screenshot page screenshotOptions);
       ret (get extraOptions "screenshotType", buffer)).

End Renderer.

(** ** What the gateways have in common (src/src/index.js) *)

(** What [res.send] is given. *)
Inductive payload :=
| SendValue (v : value)
| SendBuffer (b : Buffer).

Record Response := { status : Z; headers : object; sent : payload }.

(** The error middleware, [res.status(500).send(...)]. *)
Definition error_page (err : error) : Response :=
  {| status := 500; headers := ∅;
     sent := SendValue (VStr "Oops, Somehting went wrong") |}.

(** Express runs a synchronous handler inside [try]/[catch] and hands what
    it throws to the error middleware. *)
Definition express_sync (handled : result Response) : Response :=
  match handled with
  | Ok response => response
  | Throw err => error_page err
  end.

(** A value used where a string is needed: template literals, property
    keys, the argument of [new URL]. *)
Definition to_string `{Runtime} (v : value) : string :=
  match v with
  | VStr s => s
  | _ => ToString v
  end.

(** [x.length] of a string (in ASCII), an array, or anything else. *)
Definition length_of (v : value) : value :=
  match v with
  | VStr s => VNum (number_of_Z (Z.of_nat (String.length s)))
  | VArr items => VNum (number_of_Z (Z.of_nat (length items)))
  | _ => VUndefined
  end.

Definition buffer_length (b : Buffer) : value :=
  VNum (number_of_Z (Z.of_nat (length b))).

(** *** The content cache *)

Record CacheEntry := { html : value; validUntil : Z }.

(** What [getFromCache] returns: [undefined], [null], or the entry. *)
Inductive lookup_result :=
| RUndefined
| RNull
| REntry (found : CacheEntry).

Module HtmlCache.

(** [addToCache], with the time to live of the variant: the clock is read
    once, [now] is its value in milliseconds. *)
Definition addToCache_ttl (ttl : Z) (now : Z) (key : string) (html : value)
    (htmlCache : gmap string CacheEntry) : gmap string CacheEntry :=
  <[key := {| html := html; validUntil := now + ttl |}]> htmlCache.


(** [getFromCache]: the result and the cache it leaves. *)
Definition getFromCache (now : Z) (key : string)
    (htmlCache : gmap string CacheEntry) : lookup_result * gmap string CacheEntry :=
  match htmlCache !! key with
  | Some found =>
      if validUntil found <? now then (RNull, delete key htmlCache)
      else (REntry found, htmlCache)
  | None => (RUndefined, htmlCache)
  end.

End HtmlCache.

(** ** The query-based gateway (src/src/index.js, lines 1-157) *)

Module QueryGateway.

Record Request := { method : string; query : object; body : value }.

(** One hour. *)
Definition addToCache := HtmlCache.addToCache_ttl (1 * 60 * 60 * 1000).

(** The file name computed inside [if (!filename)]. *)
Definition derived_filename (urlObj : URL) : string :=
  if String.eqb (pathname urlObj) "/" then hostname urlObj
  else
    let filename := Str.pop (Str.split "/" (pathname urlObj)) in
    let filename :=
      if String.eqb filename "" then Str.remove_all "/" (pathname urlObj)
      else filename in
    let extDotPosition := Str.lastIndexOf "." filename in
    if 0 <? extDotPosition then Str.prefix extDotPosition filename
    else filename.

(** [if (!filename.toLowerCase().endsWith(".pdf")) filename += ".pdf"]. *)
Definition with_pdf_extension (filename : string) : string :=
  if Str.endsWith ".pdf" (Str.toLowerCase filename) then filename
  else filename ++ ".pdf".

(** The name of the PDF response: [filename] is the query parameter. *)
Definition pdf_filename (filename : value) (urlObj : URL) : result string :=
  if negb (truthy filename) then Ok (with_pdf_extension (derived_filename urlObj))
  else match filename with
       | VStr s => Ok (with_pdf_extension s)
       | _ => Throw (TypeError "filename.toLowerCase is not a function")
       end.

(** [if (!url.includes("://")) url = `http://${url}`], for a truthy [url];
    only strings and arrays have [includes]. *)
Definition with_scheme `{Runtime} (url : value) : result value :=
  match url with
  | VStr s => Ok (if Str.includes "://" s then url else VStr ("http://" ++ s))
  | VArr items =>
      Ok (if existsb (fun v => strict_eq_str v "://") items then url
          else VStr ("http://" ++ to_string url))
  | _ => Throw (TypeError "url.includes is not a function")
  end.

(** The [switch (type)] inside the [try]. *)
Definition dispatch `{Runtime} (url type filename authorization : value)
    (options : object) (post body : value) : M Response :=
  if strict_eq_str type "pdf" then
    urlObj ← lift (url_parse (to_string url));
    filename ← lift (pdf_filename filename urlObj);
    let contentDispositionType := get options "contentDispositionType" in
    let pdfOptions := delete "contentDispositionType" options in
    pdf ← Renderer.pdf url pdfOptions authorization post body;
    disposition ← lift (contentDisposition filename
      (VObj {["type" := js_or contentDispositionType (VStr "attachment")]}));
    ret {| status := 200;
           headers := <["Content-Disposition" := VStr disposition]>
                      (<["Content-Length" := buffer_length pdf]>
                      (<["Content-Type" := VStr "application/pdf"]> ∅));
           sent := SendBuffer pdf |}
  else if strict_eq_str type "screenshot" then
    '(screenshotType, buffer) ← Renderer.screenshot url options authorization post body;
    ret {| status := 200;
           headers := <["Content-Length" := buffer_length buffer]>
                      (<["Content-Type" :=
                           VStr ("image/" ++ to_string (js_or screenshotType (VStr "png")))]> ∅);
           sent := SendBuffer buffer |}
  else
    html ← Renderer.html url options authorization body VUndefined;
    ret {| status := 200; headers := ∅; sent := SendValue (VStr html) |}.

(** [res.status(400).send(...)] of the handler. *)
Definition missing_url : Response :=
  {| status := 400; headers := ∅;
     sent := SendValue
       (VStr "Search with url parameter. For eaxample, ?url=http://yourdomain") |}.

(** [...options] of [let { url, type, filename, authorization, ...options }
    = req.query]. *)
Definition request_options (query : object) : object :=
  delete "authorization" (delete "filename" (delete "type" (delete "url" query))).

(** The handler [app.use(async (req, res, next) => ...)] followed by the
    error middleware that [next(e)] reaches. A [Throw] of the result is
    a rejection of the handler that no middleware sees. *)
Definition app_use `{Runtime} (req : Request) : M Response :=
  let url := get (query req) "url" in
  let type := get (query req) "type" in
  let filename := get (query req) "filename" in
  let authorization := get (query req) "authorization" in
  let options := request_options (query req) in
  let post := VBool (String.eqb (method req) "POST") in
  let body := body req in
  if negb (truthy url) then ret missing_url
  else
    url ← lift (with_scheme url);
    try_catch (dispatch url type filename authorization options post body)
      (fun e => ret (error_page e))
      ret.

End QueryGateway.

(** ** The cache-backed gateway (src/src/index.js, lines 158-369) *)

Module CacheGateway.

(** One minute. *)
Definition addToCache := HtmlCache.addToCache_ttl (1 * 60 * 1000).

(** [res.send("invalid key")]. *)
Definition invalid_key : Response :=
  {| status := 200; headers := ∅; sent := SendValue (VStr "invalid key") |}.

(** The body of [app.get("/", (req, res, next) => ...)]: what it sends or
    throws, and the cache it leaves. *)
Definition get_root `{Runtime} (now : Z) (query : object)
    (htmlCache : gmap string CacheEntry) : result Response * gmap string CacheEntry :=
  let key := get query "key" in
  let '(rep, htmlCache') := HtmlCache.getFromCache now (to_string key) htmlCache in
  match rep with
  | RUndefined =>
      (Throw (TypeError "Cannot read properties of undefined (reading 'html')"), htmlCache')
  | RNull =>
      (Throw (TypeError "Cannot read properties of null (reading 'html')"), htmlCache')
  | REntry rep =>
      if truthy (html rep) then
        (Ok {| status := 200;
               headers := <["Content-Length" := length_of (html rep)]>
                          (<["Content-Type" := VStr "text/html; charset=utf-8"]> ∅);
               sent := SendValue (html rep) |}, htmlCache')
      else
        (Ok invalid_key, htmlCache')
  end.

(** The route as Express serves it. *)
Definition app_get_root `{Runtime} (now : Z) (query : object)
    (htmlCache : gmap string CacheEntry) : Response * gmap string CacheEntry :=
  let '(handled, htmlCache') := get_root now query htmlCache in
  (express_sync handled, htmlCache').

End CacheGateway.

(** ** Observations on traces *)

(** A render call of the engine. *)
Definition is_render (c : call) : bool :=
  match c with
  | PagePdf _ _ => true
  | _ => false
  end.

(** A call of the merge step. *)
Definition is_merge (c : call) : bool :=
  match c with
  | PdfLib _ => true
  | _ => false
  end.

(** [page.close()] on the given session. *)
Definition is_close_of (p : Page) (c : call) : bool :=
  match c with
  | PageClose q => Nat.eqb p q
  | _ => false
  end.

(** The calls [createPage] can make. *)
Definition is_setup (c : call) : bool :=
  match c with
  | BrowserNewPage | PageOn _ _ | PageSetRequestInterception _ _
  | PageEmulateMediaType _ _ | PageAuthenticate _ _ | PageGoto _ _ _ => true
  | _ => false
  end.

Definition render_calls (tr : list call) : list call := List.filter is_render tr.

Definition merge_calls (tr : list call) : list call := List.filter is_merge tr.

Definition close_count (p : Page) (tr : list call) : nat :=
  length (List.filter (is_close_of p) tr).

(** Every call made by [m] satisfies [P], whatever the outcome. *)
Definition emits `{Runtime} {A} (P : call → Prop) (m : M A) : Prop :=
  ∀ st, ∃ tr, trace (m st).2 = (trace st ++ tr)%list ∧ Forall P tr.

(** The calls [closePage] makes on a session, given the state of the
    browser: [close] is called unless [isClosed] answers [true] or throws. *)
Definition closing_calls `{Runtime} (p : Page) (w : World) : list call :=
  match page_isClosed p w with
  | (Ok false, _) => [PageIsClosed p; PageClose p]
  | _ => [PageIsClosed p]
  end.



(** ** A scripted runtime, to run the service on concrete requests *)

Module Demo.

(** Pages are written one after the other, each byte behind a [x01]
    marker, each page closed by [x00]. *)
Fixpoint save_page (page : PdfPage) : Buffer :=
  match page with
  | [] => [Byte.x00]
  | b :: rest => Byte.x01 :: b :: save_page rest
  end.

Fixpoint save (doc : list PdfPage) : Buffer :=
  match doc with
  | [] => []
  | page :: rest => (save_page page ++ save rest)%list
  end.

(** Decoding, with the page being read in [current] (reversed). *)
Fixpoint load_from (bytes : Buffer) (current : PdfPage) : result (list PdfPage) :=
  match bytes with
  | [] =>
      match current with
      | [] => Ok []
      | _ => Throw (Thrown (VStr "Failed to parse PDF document"))
      end
  | Byte.x00 :: rest =>
      match load_from rest [] with
      | Ok doc => Ok (rev current :: doc)
      | Throw e => Throw e
      end
  | Byte.x01 :: b :: rest => load_from rest (b :: current)
  | _ => Throw (Thrown (VStr "Failed to parse PDF document"))
  end.

Definition load (bytes : Buffer) : result (list PdfPage) := load_from bytes [].

(** Decimal digits to a number; anything else is [NaN]. *)
Fixpoint digits (s : string) (acc : Z) : option Z :=
  match s with
  | EmptyString => Some acc
  | String a rest =>
      let n := Z.of_nat (nat_of_ascii a) in
      if (48 <=? n) && (n <=? 57) then digits rest (10 * acc + (n - 48)) else None
  end.

Definition to_number (v : value) : number :=
  match v with
  | VStr s => match digits s 0 with Some z => number_of_Z z | None => NaN end
  | VNull => number_of_Z 0
  | VBool b => number_of_Z (if b then 1 else 0)
  | _ => NaN
  end.

Definition to_text (v : value) : string :=
  match v with
  | VUndefined => "undefined"
  | VNull => "null"
  | VBool true => "true"
  | VBool false => "false"
  | VStr s => s
  | _ => "[object Object]"
  end.

(** The text after the first ["://"], if any. *)
Fixpoint after_scheme (s : string) : option string :=
  if String.prefix "://" s then Some (String.substring 3 (String.length s - 3) s)
  else match s with
       | EmptyString => None
       | String _ rest => after_scheme rest
       end.

Fixpoint join_path (segments : list string) : string :=
  match segments with
  | [] => EmptyString
  | seg :: rest => "/" ++ seg ++ join_path rest
  end.

(** Host and path of [scheme://host/path]; an empty path reads ["/"]. *)
Definition parse_url (s : string) : result URL :=
  match after_scheme s with
  | None => Throw (TypeError "Invalid URL")
  | Some rest =>
      match Str.split "/" rest with
      | [] => Throw (TypeError "Invalid URL")
      | host :: [] => Ok {| hostname := host; pathname := "/" |}
      | host :: segments => Ok {| hostname := host; pathname := join_path segments |}
      end
  end.

(** What the scripted browser does wrong, if anything. *)
Record Script := {
  goto_fails : bool;
  first_pass_fails : bool;
  second_pass_fails : bool;
  close_fails : bool
}.

Definition healthy : Script :=
  {| goto_fails := false; first_pass_fails := false;
     second_pass_fails := false; close_fails := false |}.

(** The target never finishes loading. *)
Definition unreachable : Script :=
  {| goto_fails := true; first_pass_fails := false;
     second_pass_fails := false; close_fails := false |}.

(** Printing fails at once. *)
Definition no_printing : Script :=
  {| goto_fails := false; first_pass_fails := true;
     second_pass_fails := false; close_fails := false |}.

(** Printing the pages after the first fails. *)
Definition cover_only : Script :=
  {| goto_fails := false; first_pass_fails := false;
     second_pass_fails := true; close_fails := false |}.

(** Closing a session fails. *)
Definition stuck_sessions : Script :=
  {| goto_fails := false; first_pass_fails := false;
     second_pass_fails := false; close_fails := true |}.

Definition failure : error := Thrown (VStr "Protocol error").

(** The document the scripted browser prints: a cover and two pages. *)
Definition cover : PdfPage := [Byte.x43].
Definition page2 : PdfPage := [Byte.x42; Byte.x32].
Definition page3 : PdfPage := [Byte.x42; Byte.x33].

Definition print (script : Script) (opts : object) : result Buffer :=
  match opts !! "pageRanges" with
  | Some (VStr "1") =>
      if first_pass_fails script then Throw failure else Ok (save [cover])
  | Some (VStr "2-") =>
      if second_pass_fails script then Throw failure else Ok (save [page2; page3])
  | _ => if first_pass_fails script then Throw failure else Ok (save [cover; page2; page3])
  end.

(** The state of the scripted browser is the number of sessions opened so
    far, which is also the handle of the next one. *)
#[export] Instance scripted (script : Script) : Runtime := {|
  World := nat;
  ToNumber := to_number;
  ToString := to_text;
  browser_newPage := fun w => (Ok w, S w);
  page_setRequestInterception := fun _ _ w => w;
  page_emulateMediaType := fun _ _ w => (Ok tt, w);
  page_authenticate := fun _ _ w => (Ok tt, w);
  page_goto := fun _ _ _ w =>
    (if goto_fails script then Throw (Thrown (VStr "Navigation timeout")) else Ok tt, w);
  page_content := fun _ w => (Ok "<html></html>", w);
  page_pdf := fun _ opts w => (print script opts, w);
  page_setViewport := fun _ _ w => w;
  page_screenshot := fun _ _ w => (Ok [Byte.x89], w);
  page_isClosed := fun _ w => (Ok false, w);
  page_close := fun _ w => (if close_fails script then Throw failure else Ok tt, w);
  waitForAnimations := fun _ _ _ w => (Ok tt, w);
  pdf_load := load;
  pdf_save := save;
  url_parse := parse_url;
  contentDisposition := fun filename type =>
    Ok (to_text (get (match type with VObj o => o | _ => ∅ end) "type")
        ++ "; filename=" ++ filename)
|}.

(** A two-pass request and a single-pass request. *)
Definition footer_fields : object :=
  <["footerTemplate" := VStr "<span class=pageNumber></span>"]> ∅.

Definition footer_body : value := VObj footer_fields.

Definition plain_options : object :=
  <["printBackground" := VStr "true"]> (<["landscape" := VStr "yes"]> ∅).

Definition target : value := VStr "http://example.com/reports/q1.data".

End Demo.

(** ** The rest of the service *)

(** *** The request handler installed by [createPage]
    (src/unnamed/part_000, lines 187-199) *)

(** Equality of numbers as [==] and [===] see it: [NaN] equals nothing. *)
Definition number_eqb (n m : number) : bool :=
  match n, m with
  | Fin p, Fin q => Qeq_bool p q
  | Infty a, Infty b => Bool.eqb a b
  | _, _ => false
  end.

(** [v == true]: the boolean becomes the number 1, a string is converted to
    a number, an object to its string and then to a number. *)
Definition loosely_true `{Runtime} (v : value) : bool :=
  match v with
  | VUndefined | VNull => false
  | VBool b => b
  | VNum n => number_eqb n (number_of_Z 1)
  | VStr s => number_eqb (ToNumber (VStr s)) (number_of_Z 1)
  | VArr _ | VObj _ => number_eqb (ToNumber (VStr (ToString v))) (number_of_Z 1)
  end.

(** [v == ""]. *)
Definition loosely_empty `{Runtime} (v : value) : bool :=
  match v with
  | VUndefined | VNull => false
  | VStr s => String.eqb s ""
  | VNum n => number_eqb n (ToNumber (VStr ""))
  | VBool b => number_eqb (ToNumber (VBool b)) (ToNumber (VStr ""))
  | VArr _ | VObj _ => String.eqb (ToString v) ""
  end.

Module Interception.

(** The argument of [request.continue], from the headers and the resource
    type of the intercepted request. [authorization], [post] and [postData]
    are the parameters of [createPage], whose defaults are applied here;
    [stringify] is [JSON.stringify]. [headers] is one object, also after
    [overrides] was built from it: what is written to it later is sent. *)
Definition on_request `{Runtime} (stringify : value -> value)
    (authorization post postData : value)
    (headers : object) (resourceType : string) : object :=
  let authorization := param_default authorization (VStr "") in
  let post := param_default post (VBool false) in
  let postData := param_default postData (VStr "") in
  let as_post := loosely_true post && String.eqb resourceType "document" in
  let headers : object :=
    if as_post then <["Content-Type" := VStr "application/json"]> headers
    else headers in
  let headers : object :=
    if negb (loosely_empty authorization) then <["Authorization" := authorization]> headers
    else headers in
  let overrides : object := {["headers" := VObj headers]} in
  if as_post then
    <["postData" := stringify postData]> (<["method" := VStr "POST"]> overrides)
  else overrides.

End Interception.

(** *** The renderer before the two-pass mode (src/src/renderer.js) *)

Module LegacyRenderer.

(** [pdf], lines 31-72: one render, whatever the body. *)
Definition pdf `{Runtime} (url : value) (options : object)
    (authorization post body : value) : M Buffer :=
  Renderer.with_page
    (Renderer.pdf_open url options authorization post body)
    (fun page =>
       let single := Renderer.single_pass_options (Renderer.pdf_extra_options options) in
       buffer ← perform (PagePdf page single) (page_pdf page single);
       ret buffer).

End LegacyRenderer.

(** *** Generated keys (src/src/index.js, lines 179-184) *)

Module Uuid.

(** One digit of [toString(16)]. *)
Definition hex_digit (d : Z) : ascii :=
  match d with
  | 0 => "0" | 1 => "1" | 2 => "2" | 3 => "3" | 4 => "4" | 5 => "5" | 6 => "6"
  | 7 => "7" | 8 => "8" | 9 => "9" | 10 => "a" | 11 => "b" | 12 => "c"
  | 13 => "d" | 14 => "e" | _ => "f"
  end%char.

(** The digits of a natural number in base 16; [fuel] bounds their number. *)
Fixpoint digits16 (fuel : nat) (v : Z) : string :=
  match fuel with
  | O => ""
  | S fuel' =>
      (if v <? 16 then "" else digits16 fuel' (v / 16))
      ++ String (hex_digit (v mod 16)) ""
  end.

(** [v.toString(16)] for an integer; [v] has fewer than [v + 1] digits. *)
Definition toString16 (v : Z) : string :=
  if v <? 0 then "-" ++ digits16 (S (Z.to_nat (- v))) (- v)
  else digits16 (S (Z.to_nat v)) v.

(** [x | 0]: the fraction is dropped, the integer wraps to 32 bits. *)
Definition to_int32 (x : Q) : Z :=
  let truncated := if Qle_bool (inject_Z 0) x then Qfloor x else Qceiling x in
  (truncated + 2 ^ 31) mod 2 ^ 32 - 2 ^ 31.

(** [template.replace(/[xy]/g, function (c) { ... })]: the callback runs
    once per [x] or [y], left to right; [random i] is what the call number
    [i] of [Math.random()] returns. *)
Fixpoint replace_xy (template : string) (random : nat -> Q) (i : nat) : string :=
  match template with
  | EmptyString => EmptyString
  | String c rest =>
      if Ascii.eqb c "x" || Ascii.eqb c "y" then
        let r := to_int32 (Qmult (random i) (inject_Z 16)) in
        let v := if Ascii.eqb c "x" then r else Z.lor (Z.land r 3) 8 in
        toString16 v ++ replace_xy rest random (S i)
      else String c (replace_xy rest random i)
  end.

Definition template : string := "xxxxxxxx-xxxx-4xxx-yxxx-xxxxxxxxxxxx".

Definition uuidv4 (random : nat -> Q) : string := replace_xy template random 0.

(** A lower-case hexadecimal digit. *)
Definition is_hex (c : ascii) : bool :=
  let n := nat_of_ascii c in
  ((48 <=? n) && (n <=? 57) || (97 <=? n) && (n <=? 102))%nat.

(** Whether a string has the shape of a template: a hexadecimal digit for
    each [x], one of [8], [9], [a], [b] for each [y], the template's own
    character elsewhere. *)
Fixpoint conforms (template s : string) : bool :=
  match template, s with
  | EmptyString, EmptyString => true
  | String c template', String d s' =>
      (if Ascii.eqb c "x" then is_hex d
       else if Ascii.eqb c "y" then
         Ascii.eqb d "8" || Ascii.eqb d "9" || Ascii.eqb d "a" || Ascii.eqb d "b"
       else Ascii.eqb d c)
      && conforms template' s'
  | _, _ => false
  end.

End Uuid.

(** *** The raw-HTML endpoint (src/src/index.js, lines 216-253) *)

Module RawHtmlEndpoint.

(** [...options] of [let { filename, authorization, post, body, ...options }
    = req.query]. *)
Definition request_options (query : object) : object :=
  delete "body" (delete "post" (delete "authorization" (delete "filename" query))).

(** The loopback URL the browser is sent to. *)
Definition loopback (port uuid : string) : string :=
  "http://localhost:" ++ port ++ "?key=" ++ uuid.

(** The answer of a render that succeeded. *)
Definition pdf_response (pdf : Buffer) (disposition : string) : Response :=
  {| status := 200;
     headers := <["Content-Disposition" := VStr disposition]>
                (<["Content-Length" := buffer_length pdf]>
                (<["Content-Type" := VStr "application/pdf"]> ∅));
     sent := SendBuffer pdf |}.

(** The handler [app.post("/", async (req, res, next) => ...)] with the
    error middleware behind its [catch]: the answer and the cache it
    leaves. The clock reads [now] when the body is stored; [port] is the
    listening port as text. While the render is awaited the handlers of
    other requests run (the GET route serving this very key among them)
    and the sweep may fire: [meanwhile] is what they make of the cache.
    The file name is computed by the statements of the query-based
    endpoint, repeated in this handler. *)
Definition post_root `{Runtime} (port : string) (random : nat -> Q) (now : Z)
    (query : object) (reqBody : value)
    (meanwhile : gmap string CacheEntry -> gmap string CacheEntry)
    (htmlCache : gmap string CacheEntry) : M (Response * gmap string CacheEntry) :=
  let filename := get query "filename" in
  let authorization := get query "authorization" in
  let post := get query "post" in
  let body := get query "body" in
  let options := request_options query in
  let html := reqBody in
  let uuid := Uuid.uuidv4 random in
  let stored := CacheGateway.addToCache now uuid html htmlCache in
  try_catch
    (urlObj ← lift (url_parse (loopback port uuid));
     lift (QueryGateway.pdf_filename filename urlObj))
    (fun e => ret (error_page e, stored))
    (fun filename =>
       let contentDispositionType := get options "contentDispositionType" in
       let pdfOptions := delete "contentDispositionType" options in
       try_catch
         (Renderer.pdf (VStr (loopback port uuid)) pdfOptions authorization post body)
         (fun e => ret (error_page e, meanwhile stored))
         (fun pdf =>
            let htmlCache' := delete uuid (meanwhile stored) in
            try_catch
              (lift (contentDisposition filename
                 (VObj {["type" := js_or contentDispositionType (VStr "attachment")]})))
              (fun e => ret (error_page e, htmlCache'))
              (fun disposition => ret (pdf_response pdf disposition, htmlCache')))).

End RawHtmlEndpoint.

(** *** One more scripted browser *)

Module Garbled.

(** The pages after the first are printed as bytes that are no document. *)
Definition print (opts : object) : result Buffer :=
  match opts !! "pageRanges" with
  | Some (VStr "2-") => Ok [Byte.x02]
  | _ => Demo.print Demo.healthy opts
  end.

Definition browser : Runtime :=
  let R := Demo.scripted Demo.healthy in
  {| World := nat;
     ToNumber := @ToNumber R;
     ToString := @ToString R;
     browser_newPage := @browser_newPage R;
     page_setRequestInterception := @page_setRequestInterception R;
     page_emulateMediaType := @page_emulateMediaType R;
     page_authenticate := @page_authenticate R;
     page_goto := @page_goto R;
     page_content := @page_content R;
     page_pdf := fun _ opts w => (print opts, w);
     page_setViewport := @page_setViewport R;
     page_screenshot := @page_screenshot R;
     page_isClosed := @page_isClosed R;
     page_close := @page_close R;
     waitForAnimations := @waitForAnimations R;
     pdf_load := @pdf_load R;
     pdf_save := @pdf_save R;
     url_parse := @url_parse R;
     contentDisposition := @contentDisposition R |}.

End Garbled.

(** * Properties *)

(** ** The content cache *)

Section CacheProperties.

Implicit Types (now : Z) (key : string) (htmlCache : gmap string CacheEntry).

Lemma getFromCache_live now key htmlCache found :
  htmlCache !! key = Some found → validUntil found >= now →
  HtmlCache.getFromCache now key htmlCache = (REntry found, htmlCache).
Proof.
  intros Hkey Hlive. unfold HtmlCache.getFromCache. rewrite Hkey.
  destruct (Z.ltb_spec (validUntil found) now); [lia | reflexivity].
Qed.

Lemma getFromCache_expired now key htmlCache found :
  htmlCache !! key = Some found → validUntil found < now →
  HtmlCache.getFromCache now key htmlCache = (RNull, delete key htmlCache).
Proof.
  intros Hkey Hold. unfold HtmlCache.getFromCache. rewrite Hkey.
  destruct (Z.ltb_spec (validUntil found) now); [reflexivity | lia].
Qed.



(** C6, as the code has it: until its expiry timestamp an entry is
    returned with the content stored, and the read leaves it in the
    cache, so that a second read returns it again; a read after the
    expiry timestamp returns [null] and removes the entry. *)
Theorem cache_round_trip now t1 t2 t3 key content htmlCache :
  t1 <= now + 60000 → t2 <= now + 60000 → now + 60000 < t3 →
  let stored := CacheGateway.addToCache now key content htmlCache in
  let entry := {| html := content; validUntil := now + 60000 |} in
  HtmlCache.getFromCache t1 key stored = (REntry entry, stored)
  ∧ HtmlCache.getFromCache t2 key (HtmlCache.getFromCache t1 key stored).2
    = (REntry entry, stored)
  ∧ HtmlCache.getFromCache t3 key stored = (RNull, delete key stored)
  ∧ (HtmlCache.getFromCache t3 key stored).2 !! key = None.
Proof.
  intros H1 H2 H3 stored entry.
  assert (Hkey : stored !! key = Some entry).
  { unfold stored, CacheGateway.addToCache, HtmlCache.addToCache_ttl.
    by rewrite lookup_insert_eq. }
  assert (Hfirst : HtmlCache.getFromCache t1 key stored = (REntry entry, stored)).
  { apply getFromCache_live; [done | simpl; lia]. }
  assert (Hthird : HtmlCache.getFromCache t3 key stored = (RNull, delete key stored)).
  { apply getFromCache_expired with (found := entry); [done | simpl; lia]. }
  repeat split.
  - exact Hfirst.
  - rewrite Hfirst. simpl. apply getFromCache_live; [done | simpl; lia].
  - exact Hthird.
  - rewrite Hthird. simpl. apply lookup_delete_eq.
Qed.

Lemma cache_round_trip_witness :
  let stored := CacheGateway.addToCache 0 "k" (VStr "<p>hi</p>") ∅ in
  let entry := {| html := VStr "<p>hi</p>"; validUntil := 0 + 60000 |} in
  HtmlCache.getFromCache 0 "k" stored = (REntry entry, stored)
  ∧ HtmlCache.getFromCache 1 "k" (HtmlCache.getFromCache 0 "k" stored).2
    = (REntry entry, stored)
  ∧ HtmlCache.getFromCache 60001 "k" stored = (RNull, delete "k" stored)
  ∧ (HtmlCache.getFromCache 60001 "k" stored).2 !! "k" = None.
Proof. apply (cache_round_trip 0 0 1 60001 "k" (VStr "<p>hi</p>") ∅); lia. Defined.

(** C6, the part that fails: reading does not delete. After one successful
    read of a key, a second read of the same key finds the entry again,
    and the GET route serves the stored content a second time. *)
Lemma cache_second_read_counterexample :
  let stored := CacheGateway.addToCache 0 "k" (VStr "<p>hi</p>") ∅ in
  let entry := {| html := VStr "<p>hi</p>"; validUntil := 60000 |} in
  let query : object := {["key" := VStr "k"]} in
  (HtmlCache.getFromCache 1 "k" stored).1 = REntry entry
  ∧ (HtmlCache.getFromCache 2 "k" (HtmlCache.getFromCache 1 "k" stored).2).1
    = REntry entry
  ∧ (HtmlCache.getFromCache 2 "k" (HtmlCache.getFromCache 1 "k" stored).2).1 ≠ RNull
  ∧ (HtmlCache.getFromCache 2 "k" (HtmlCache.getFromCache 1 "k" stored).2).1
    ≠ RUndefined
  ∧ sent (@CacheGateway.app_get_root (Demo.scripted Demo.healthy) 2 query
            (@CacheGateway.app_get_root (Demo.scripted Demo.healthy) 1 query stored).2).1
    = SendValue (VStr "<p>hi</p>").
Proof. vm_compute. repeat split; discriminate. Qed.




End CacheProperties.


(** ** Reasoning about runs *)

Section Runs.

Context `{Runtime}.

Lemma emits_ret {A} P (a : A) : emits P (ret a).
Proof. intros st. exists []. simpl. by rewrite app_nil_r. Qed.

Lemma emits_throw {A} P e : emits P (@throw _ A e).
Proof. intros st. exists []. simpl. by rewrite app_nil_r. Qed.

Lemma emits_lift {A} P (r : result A) : emits P (lift r).
Proof. intros st. exists []. simpl. by rewrite app_nil_r. Qed.

Lemma emits_perform {A} (P : call → Prop) c (f : World → result A * World) :
  P c → emits P (perform c f).
Proof.
  intros Hc st. exists [c]. unfold perform.
  destruct (f (world st)) as [r w]. simpl. auto.
Qed.

Lemma emits_fire (P : call → Prop) c f : P c → emits P (fire c f).
Proof. intros Hc st. exists [c]. simpl. auto. Qed.

Lemma emits_bind {A B} P (m : M A) (k : A → M B) :
  emits P m → (∀ a, emits P (k a)) → emits P (m ≫= k).
Proof.
  intros Hm Hk st. unfold mbind, M_bind, bind.
  destruct (Hm st) as (tr1 & Htr1 & HP1).
  destruct (m st) as [[a|e] st1]; simpl in *.
  - destruct (Hk a st1) as (tr2 & Htr2 & HP2).
    exists (tr1 ++ tr2)%list. rewrite Htr2, Htr1, app_assoc.
    split; [done | by apply Forall_app].
  - by exists tr1.
Qed.

Lemma emits_try_catch {A B} P (m : M B) (h : error → M A) (k : B → M A) :
  emits P m → (∀ e, emits P (h e)) → (∀ b, emits P (k b)) →
  emits P (try_catch m h k).
Proof.
  intros Hm Hh Hk st. unfold try_catch.
  destruct (Hm st) as (tr1 & Htr1 & HP1).
  destruct (m st) as [[b|e] st1]; simpl in *.
  - destruct (Hk b st1) as (tr2 & Htr2 & HP2).
    exists (tr1 ++ tr2)%list. rewrite Htr2, Htr1, app_assoc.
    split; [done | by apply Forall_app].
  - destruct (Hh e st1) as (tr2 & Htr2 & HP2).
    exists (tr1 ++ tr2)%list. rewrite Htr2, Htr1, app_assoc.
    split; [done | by apply Forall_app].
Qed.

Lemma emits_try_finally {A} P (body : M A) (finalizer : M unit) :
  emits P body → emits P finalizer → emits P (try_finally body finalizer).
Proof.
  intros Hb Hf st. unfold try_finally.
  destruct (Hb st) as (tr1 & Htr1 & HP1).
  destruct (body st) as [r st1]; simpl in *.
  destruct (Hf st1) as (tr2 & Htr2 & HP2).
  exists (tr1 ++ tr2)%list.
  destruct (finalizer st1) as [[[]|e] st2]; simpl in *;
    rewrite Htr2, Htr1, app_assoc; (split; [done | by apply Forall_app]).
Qed.

Lemma emits_weaken {A} (P Q : call → Prop) (m : M A) :
  (∀ c, P c → Q c) → emits P m → emits Q m.
Proof.
  intros HPQ Hm st. destruct (Hm st) as (tr & Htr & HP).
  exists tr. split; [done |]. eapply Forall_impl; eauto.
Qed.

(** Filtering a trace whose calls all fail the test. *)
Lemma filter_none (f : call → bool) (P : call → Prop) tr :
  (∀ c, P c → f c = false) → Forall P tr → List.filter f tr = [].
Proof.
  intros Hf. induction 1 as [|c tr Hc _ IH]; simpl; [done |].
  by rewrite (Hf c Hc).
Qed.

(** *** Closing a page *)

Lemma closePage_none st : Renderer.closePage None st = (Ok tt, st).
Proof. reflexivity. Qed.

(** [closePage] never throws. *)
Lemma closePage_some p st :
  ∃ st', Renderer.closePage (Some p) st = (Ok tt, st')
         ∧ trace st' = (trace st ++ closing_calls p (world st))%list.
Proof.
  unfold Renderer.closePage, try_catch, closing_calls, mbind, M_bind, bind, perform, ret.
  destruct (page_isClosed p (world st)) as [[[|]|e] w1]; simpl.
  - eexists. split; [reflexivity | done].
  - destruct (page_close p w1) as [[[]|e] w2]; simpl;
      (eexists; split; [reflexivity |]); simpl; by rewrite <- app_assoc.
  - eexists. split; [reflexivity | done].
Qed.

Lemma closePage_ok page st : (Renderer.closePage page st).1 = Ok tt.
Proof.
  destruct page as [p|]; [| reflexivity].
  destruct (closePage_some p st) as (st' & -> & _). reflexivity.
Qed.

(** When the page opens, the outcome of the operation is the outcome of
    what follows, and the session is then closed by [closePage]. *)
Lemma with_page_opened {A} (create : M Page) (rest : Page → M A) st page st1 :
  create st = (Ok page, st1) →
  ∃ st3, Renderer.with_page create rest st = ((rest page st1).1, st3)
         ∧ trace st3 = (trace (rest page st1).2
                        ++ closing_calls page (world (rest page st1).2))%list.
Proof.
  intros Hcreate. unfold Renderer.with_page, try_finally. rewrite Hcreate.
  destruct (rest page st1) as [r st2]. simpl.
  destruct (closePage_some page st2) as (st3 & -> & Htr). eauto.
Qed.

(** When [createPage] throws, [page] is still [null]: nothing is closed. *)
Lemma with_page_failed {A} (create : M Page) (rest : Page → M A) st e st1 :
  create st = (Throw e, st1) →
  Renderer.with_page create rest st = (Throw e, st1).
Proof. intros Hcreate. unfold Renderer.with_page. by rewrite Hcreate. Qed.

Lemma closing_calls_not_render p w : render_calls (closing_calls p w) = [].
Proof.
  unfold closing_calls. by destruct (page_isClosed p w) as [[[|]|e] w1].
Qed.

Lemma closing_calls_not_merge p w : merge_calls (closing_calls p w) = [].
Proof.
  unfold closing_calls. by destruct (page_isClosed p w) as [[[|]|e] w1].
Qed.

(** *** Opening a page *)

Lemma createPage_emits url options authorization post postData :
  emits (λ c, is_setup c = true)
        (Renderer.createPage url options authorization post postData).
Proof.
  unfold Renderer.createPage.
  apply emits_bind; [by apply emits_perform | intros page].
  apply emits_bind; [by apply emits_fire | intros _].
  apply emits_bind; [by apply emits_fire | intros _].
  apply emits_bind; [by apply emits_fire | intros _].
  apply emits_bind; [| intros _].
  { destruct (truthy _); [by apply emits_perform | apply emits_ret]. }
  apply emits_bind; [| intros _].
  { destruct (truthy _); [by apply emits_perform | apply emits_ret]. }
  apply emits_bind; [by apply emits_perform | intros _].
  apply emits_ret.
Qed.

(** A page that has just been opened: no render, merge or close yet. *)
Lemma createPage_quiet url options authorization post postData w r st1 :
  run (Renderer.createPage url options authorization post postData) w = (r, st1) →
  render_calls (trace st1) = [] ∧ merge_calls (trace st1) = []
  ∧ ∀ p, close_count p (trace st1) = 0%nat.
Proof.
  intros Hrun. unfold run in Hrun.
  destruct (createPage_emits url options authorization post postData (State _ w []))
    as (tr & Htr & Hsetup).
  rewrite Hrun in Htr. simpl in Htr. rewrite Htr.
  split; [| split; [| intros p; unfold close_count]].
  - eapply filter_none; [| exact Hsetup]. by intros [].
  - eapply filter_none; [| exact Hsetup]. by intros [].
  - erewrite filter_none; [done | | exact Hsetup]. by intros [].
Qed.

(** *** The merge *)

Lemma copy_from_emits mainDoc left i pdfDoc :
  emits (λ c, is_merge c = true) (Renderer.copy_from mainDoc left i pdfDoc).
Proof.
  revert i pdfDoc. induction left as [|left IH]; intros i pdfDoc; simpl.
  - apply emits_ret.
  - apply emits_bind; [by apply emits_perform | intros page].
    apply emits_bind; [by apply emits_perform | intros pdfDoc'].
    apply IH.
Qed.

Lemma mergePdfs_emits pdf1 pdf2 :
  emits (λ c, is_merge c = true) (Renderer.mergePdfs pdf1 pdf2).
Proof.
  unfold Renderer.mergePdfs.
  apply emits_bind; [by apply emits_perform | intros pdfDoc].
  apply emits_bind; [by apply emits_perform | intros coverDoc].
  apply emits_bind; [by apply emits_perform | intros coverPage].
  apply emits_bind; [by apply emits_perform | intros pdfDoc'].
  apply emits_bind; [by apply emits_perform | intros mainDoc].
  apply emits_bind; [apply copy_from_emits | intros pdfDoc''].
  apply emits_bind; [by apply emits_perform | intros pdfBytes].
  apply emits_ret.
Qed.

(** The loop, entered at index [length done] with [todo] left to copy,
    appends [todo] in order. *)
Lemma copy_from_appends (todo done pdfDoc : list PdfPage) st :
  ∃ st', Renderer.copy_from (done ++ todo) (length todo) (length done) pdfDoc st
         = (Ok (pdfDoc ++ todo)%list, st').
Proof.
  revert done pdfDoc st.
  induction todo as [|page todo IH]; intros done pdfDoc st; simpl.
  - rewrite app_nil_r. by eexists.
  - unfold mbind, M_bind, bind, Renderer.copyPage, Renderer.addPage,
      Renderer.pdflib, perform.
    rewrite list_lookup_middle by done. simpl.
    destruct (IH (done ++ [page])%list (pdfDoc ++ [page])%list
                (State _ (world st)
                   ((trace st ++ [PdfLib (CopyPages (length done))]) ++ [PdfLib AddPage])))
      as (st' & Hst').
    rewrite <- !app_assoc in Hst'. simpl in Hst'.
    rewrite length_app in Hst'. simpl in Hst'.
    replace (length done + 1)%nat with (S (length done)) in Hst' by lia.
    exists st'. rewrite <- Hst'. by rewrite <- !app_assoc.
Qed.

Lemma mergePdfs_pages pdf1 pdf2 coverPage others body st :
  pdf_load pdf1 = Ok (coverPage :: others) →
  pdf_load pdf2 = Ok body →
  ∃ st', Renderer.mergePdfs pdf1 pdf2 st = (Ok (pdf_save (coverPage :: body)), st').
Proof.
  intros Hcover Hbody.
  unfold Renderer.mergePdfs, mbind, M_bind, bind, Renderer.copyPage,
    Renderer.addPage, Renderer.pdflib, perform.
  simpl. rewrite Hcover. simpl. rewrite Hbody. simpl.
  match goal with
  | |- context [Renderer.copy_from body (length body) 0 ?doc ?s] =>
      destruct (copy_from_appends body [] doc s) as (st1 & Hloop)
  end.
  simpl in Hloop. rewrite Hloop. simpl. by eexists.
Qed.

End Runs.

(** The demonstration codec decodes what it encodes. *)
Lemma demo_load_page (page current : PdfPage) (tail : Buffer) :
  Demo.load_from (Demo.save_page page ++ tail)%list current =
    match Demo.load_from tail [] with
    | Ok doc => Ok ((rev current ++ page)%list :: doc)
    | Throw e => Throw e
    end.
Proof.
  revert current. induction page as [|b page IH]; intros current; simpl.
  - by rewrite app_nil_r.
  - rewrite IH. simpl. destruct (Demo.load_from tail []); [| done].
    by rewrite <- app_assoc.
Qed.

Lemma demo_load_save (doc : list PdfPage) : Demo.load (Demo.save doc) = Ok doc.
Proof.
  unfold Demo.load. induction doc as [|page doc IH]; simpl; [done |].
  rewrite demo_load_page, IH. done.
Qed.

(** C1. When the cover buffer decodes to at least one page and the body
    buffer decodes to [N] pages, [mergePdfs] returns a new buffer, the
    encoding of page 1 of the cover followed by the pages of the body in
    their order: [1 + N] pages, the first being the cover's first page.
    With pdf-lib decoding what it encodes, this is what the result
    decodes to. *)
Theorem mergePdfs_cover_then_body `{Runtime} (pdf1 pdf2 : Buffer)
    (coverPage : PdfPage) (others body : list PdfPage) (st : state) :
  pdf_load pdf1 = Ok (coverPage :: others) →
  pdf_load pdf2 = Ok body →
  let pages := coverPage :: body in
  (Renderer.mergePdfs pdf1 pdf2 st).1 = Ok (pdf_save pages)
  ∧ length pages = (1 + length body)%nat
  ∧ pages !! 0%nat = Some coverPage
  ∧ (∀ i, pages !! S i = body !! i)
  ∧ ((∀ doc, pdf_load (pdf_save doc) = Ok doc) →
     ∃ merged, (Renderer.mergePdfs pdf1 pdf2 st).1 = Ok merged
               ∧ pdf_load merged = Ok pages).
Proof.
  intros Hcover Hbody pages.
  destruct (mergePdfs_pages pdf1 pdf2 coverPage others body st Hcover Hbody)
    as (st' & Hmerge).
  rewrite Hmerge. simpl. repeat split.
  intros Hcodec. exists (pdf_save pages). by rewrite Hcodec.
Qed.

Lemma mergePdfs_cover_then_body_witness :
  let R := Demo.scripted Demo.healthy in
  let pages := [Demo.cover; Demo.page2; Demo.page3] in
  (Renderer.mergePdfs (Demo.save [Demo.cover; Demo.page3])
     (Demo.save [Demo.page2; Demo.page3]) (State R 0%nat [])).1
    = Ok (Demo.save pages)
  ∧ ∃ merged,
      (Renderer.mergePdfs (Demo.save [Demo.cover; Demo.page3])
         (Demo.save [Demo.page2; Demo.page3]) (State R 0%nat [])).1 = Ok merged
      ∧ pdf_load merged = Ok pages.
Proof.
  intros R pages.
  destruct (@mergePdfs_cover_then_body R (Demo.save [Demo.cover; Demo.page3])
              (Demo.save [Demo.page2; Demo.page3]) Demo.cover [Demo.page3]
              [Demo.page2; Demo.page3] (State R 0%nat []) eq_refl eq_refl)
    as (Hmerged & _ & _ & _ & Hdecoded).
  split; [exact Hmerged | exact (Hdecoded demo_load_save)].
Defined.

(** ** The pdf operation *)

Section PdfOperation.

Context `{Runtime}.

Lemma render_calls_app tr1 tr2 :
  render_calls (tr1 ++ tr2) = (render_calls tr1 ++ render_calls tr2)%list.
Proof. apply List.filter_app. Qed.

Lemma merge_calls_app tr1 tr2 :
  merge_calls (tr1 ++ tr2) = (merge_calls tr1 ++ merge_calls tr2)%list.
Proof. apply List.filter_app. Qed.

(** A body from which [footerTemplate] can be read gives its other
    properties too. *)
Lemma get_prop_total (body : value) k v k' :
  get_prop body k = Ok v → ∃ v', get_prop body k' = Ok v'.
Proof. destruct body; simpl; intros; try discriminate; eauto. Qed.

(** Single-pass mode is one awaited [page.pdf]. *)
Lemma pdf_render_single page extraOptions body footerTemplate st :
  get_prop body "footerTemplate" = Ok footerTemplate →
  not_nullish footerTemplate = false →
  Renderer.pdf_render page extraOptions body st =
    let single := Renderer.single_pass_options extraOptions in
    ((page_pdf page single (world st)).1,
     State _ (page_pdf page single (world st)).2 (trace st ++ [PagePdf page single])).
Proof.
  intros Hfooter Hnull.
  destruct (get_prop_total body _ _ "footerFirstMarginBottom" Hfooter) as (v1 & Hv1).
  destruct (get_prop_total body _ _ "footerOtherMarginBottom" Hfooter) as (v2 & Hv2).
  unfold Renderer.pdf_render, mbind, M_bind, bind, lift, perform, ret.
  rewrite Hfooter, Hv1, Hv2, Hnull. simpl.
  by destruct (page_pdf _ _ _) as [[buffer|e] w1].
Qed.

(** Two-pass mode: the second render is attempted only after the first
    succeeded, and the merge only after both did. *)
Lemma pdf_render_two_pass page extraOptions (b : object) st :
  not_nullish (get b "footerTemplate") = true →
  let first := Renderer.first_pass_options extraOptions
                 (get b "footerTemplate") (get b "footerFirstMarginBottom") in
  let second := Renderer.second_pass_options extraOptions
                  (get b "footerTemplate") (get b "footerOtherMarginBottom") in
  Renderer.pdf_render page extraOptions (VObj b) st =
    match page_pdf page first (world st) with
    | (Throw e, w1) => (Throw e, State _ w1 (trace st ++ [PagePdf page first]))
    | (Ok pdf1, w1) =>
        match page_pdf page second w1 with
        | (Throw e, w2) =>
            (Ok pdf1, State _ w2 ((trace st ++ [PagePdf page first])
                                    ++ [PagePdf page second]))
        | (Ok pdf2, w2) =>
            Renderer.mergePdfs pdf1 pdf2
              (State _ w2 ((trace st ++ [PagePdf page first]) ++ [PagePdf page second]))
        end
    end.
Proof.
  intros Hfooter first second.
  unfold Renderer.pdf_render, mbind, M_bind, bind, lift, perform, ret, try_catch.
  simpl. rewrite Hfooter. fold first second.
  destruct (page_pdf page first (world st)) as [[pdf1|e] w1]; simpl; [| done].
  by destruct (page_pdf page second w1) as [[pdf2|e] w2].
Qed.

Lemma pdf_open_quiet url options authorization post body w r st1 :
  run (Renderer.pdf_open url options authorization post body) w = (r, st1) →
  render_calls (trace st1) = [] ∧ merge_calls (trace st1) = []
  ∧ ∀ p, close_count p (trace st1) = 0%nat.
Proof. apply createPage_quiet. Qed.

(** What the first render is asked for. *)
Lemma first_pass_options_spec extraOptions footerTemplate margin :
  let first := Renderer.first_pass_options extraOptions footerTemplate margin in
  first !! "pageRanges" = Some (VStr "1")
  ∧ first !! "margin" =
      Some (VObj {["bottom" := if not_nullish margin then margin else VStr "35px"]})
  ∧ first !! "footerTemplate" = Some footerTemplate
  ∧ first !! "displayHeaderFooter" = Some (VBool true).
Proof. unfold Renderer.first_pass_options. by simplify_map_eq. Qed.

(** What the second render is asked for. *)
Lemma second_pass_options_spec extraOptions footerTemplate margin :
  let second := Renderer.second_pass_options extraOptions footerTemplate margin in
  second !! "pageRanges" = Some (VStr "2-")
  ∧ second !! "margin" =
      Some (VObj {["bottom" := if not_nullish margin then margin else VStr "78px"]})
  ∧ second !! "footerTemplate" = Some footerTemplate
  ∧ second !! "displayHeaderFooter" = Some (VBool true).
Proof. unfold Renderer.second_pass_options. by simplify_map_eq. Qed.

(** C2. In two-pass mode, when the first render (page range "1") succeeds
    and the second (page range "2-") throws, [pdf] returns the buffer of
    the first render unchanged: the error of the second render does not
    propagate, and nothing is merged. *)
Theorem second_pass_failure_returns_cover url options authorization post
    (b : object) w page st1 pdf1 w2 e w3 :
  let extraOptions := Renderer.pdf_extra_options options in
  let first := Renderer.first_pass_options extraOptions
                 (get b "footerTemplate") (get b "footerFirstMarginBottom") in
  let second := Renderer.second_pass_options extraOptions
                  (get b "footerTemplate") (get b "footerOtherMarginBottom") in
  not_nullish (get b "footerTemplate") = true →
  run (Renderer.pdf_open url options authorization post (VObj b)) w = (Ok page, st1) →
  page_pdf page first (world st1) = (Ok pdf1, w2) →
  page_pdf page second w2 = (Throw e, w3) →
  first !! "pageRanges" = Some (VStr "1")
  ∧ second !! "pageRanges" = Some (VStr "2-")
  ∧ (run (Renderer.pdf url options authorization post (VObj b)) w).1 = Ok pdf1
  ∧ merge_calls (trace (run (Renderer.pdf url options authorization post (VObj b)) w).2)
    = [].
Proof.
  intros extraOptions first second Hfooter Hopen Hfirst Hsecond.
  split; [apply first_pass_options_spec |].
  split; [apply second_pass_options_spec |].
  destruct (pdf_open_quiet _ _ _ _ _ _ _ _ Hopen) as (_ & Hquiet & _).
  unfold run in *. unfold Renderer.pdf.
  destruct (with_page_opened _
              (λ page, Renderer.pdf_render page (Renderer.pdf_extra_options options)
                         (param_default (VObj b) (VStr "")))
              _ _ _ Hopen) as (st3 & -> & Htr).
  simpl param_default in *. simpl fst. simpl snd. rewrite Htr. clear Htr.
  rewrite (pdf_render_two_pass _ _ _ _ Hfooter).
  fold extraOptions first second. rewrite Hfirst, Hsecond. simpl.
  split; [done |].
  rewrite !merge_calls_app, Hquiet, closing_calls_not_merge. done.
Qed.

(** C3, as the code has it. Once the page of a request with a non-null
    [footerTemplate] is open, the first render call is pass A (range "1",
    bottom margin the caller's first margin or "35px", the footer template,
    [displayHeaderFooter] true); only if it succeeds a second render call
    follows on the same page, pass B (range "2-", bottom margin the
    caller's other margin or "78px", the same template,
    [displayHeaderFooter] true); there is no other render call. The result
    is the error of pass A if it throws, the buffer of pass A if pass B
    throws, and otherwise what [mergePdfs] makes of the two buffers. *)
Theorem two_pass_render_calls url options authorization post (b : object)
    w page st1 :
  let extraOptions := Renderer.pdf_extra_options options in
  let footerTemplate := get b "footerTemplate" in
  let firstMargin := get b "footerFirstMarginBottom" in
  let otherMargin := get b "footerOtherMarginBottom" in
  let first := Renderer.first_pass_options extraOptions footerTemplate firstMargin in
  let second := Renderer.second_pass_options extraOptions footerTemplate otherMargin in
  let outcome := run (Renderer.pdf url options authorization post (VObj b)) w in
  not_nullish footerTemplate = true →
  run (Renderer.pdf_open url options authorization post (VObj b)) w = (Ok page, st1) →
  (first !! "pageRanges" = Some (VStr "1")
   ∧ first !! "margin" =
       Some (VObj {["bottom" :=
         if not_nullish firstMargin then firstMargin else VStr "35px"]})
   ∧ first !! "footerTemplate" = Some footerTemplate
   ∧ first !! "displayHeaderFooter" = Some (VBool true))
  ∧ (second !! "pageRanges" = Some (VStr "2-")
     ∧ second !! "margin" =
         Some (VObj {["bottom" :=
           if not_nullish otherMargin then otherMargin else VStr "78px"]})
     ∧ second !! "footerTemplate" = Some footerTemplate
     ∧ second !! "displayHeaderFooter" = Some (VBool true))
  ∧ match page_pdf page first (world st1) with
    | (Throw e, _) =>
        outcome.1 = Throw e
        ∧ render_calls (trace outcome.2) = [PagePdf page first]
        ∧ merge_calls (trace outcome.2) = []
    | (Ok pdf1, w2) =>
        render_calls (trace outcome.2) = [PagePdf page first; PagePdf page second]
        ∧ match page_pdf page second w2 with
          | (Throw _, _) => outcome.1 = Ok pdf1 ∧ merge_calls (trace outcome.2) = []
          | (Ok pdf2, w3) =>
              ∃ st2, world st2 = w3
                     ∧ outcome.1 = (Renderer.mergePdfs pdf1 pdf2 st2).1
          end
    end.
Proof.
  intros extraOptions footerTemplate firstMargin otherMargin first second outcome
    Hfooter Hopen.
  split; [apply first_pass_options_spec |].
  split; [apply second_pass_options_spec |].
  destruct (pdf_open_quiet _ _ _ _ _ _ _ _ Hopen) as (Hrender & Hmerge & _).
  subst outcome. unfold run in *. unfold Renderer.pdf.
  destruct (with_page_opened _
              (λ page, Renderer.pdf_render page (Renderer.pdf_extra_options options)
                         (param_default (VObj b) (VStr "")))
              _ _ _ Hopen) as (st3 & -> & Htr).
  simpl param_default in *. simpl fst. simpl snd. rewrite Htr. clear Htr.
  rewrite (pdf_render_two_pass _ _ _ _ Hfooter).
  fold extraOptions footerTemplate firstMargin otherMargin first second.
  destruct (page_pdf page first (world st1)) as [[pdf1|e] w2]; simpl.
  - destruct (page_pdf page second w2) as [[pdf2|e] w3]; simpl.
    + destruct (mergePdfs_emits pdf1 pdf2
                  (State _ w3 ((trace st1 ++ [PagePdf page first])
                               ++ [PagePdf page second]))) as (tr & Htr & Hcalls).
      split; [| eexists; split; [| reflexivity]; reflexivity].
      rewrite render_calls_app, closing_calls_not_render, Htr. simpl.
      rewrite !render_calls_app, Hrender. simpl.
      unfold render_calls at 1.
      erewrite filter_none; [reflexivity | | exact Hcalls].
      by intros [].
    + rewrite !render_calls_app, !merge_calls_app, Hrender, Hmerge,
        closing_calls_not_render, closing_calls_not_merge. done.
  - rewrite !render_calls_app, !merge_calls_app, Hrender, Hmerge,
      closing_calls_not_render, closing_calls_not_merge. done.
Qed.


End PdfOperation.

(** ** The pdf operation on the scripted browser *)

Lemma second_pass_failure_returns_cover_witness :
  let R := Demo.scripted Demo.cover_only in
  (run (Renderer.pdf Demo.target Demo.plain_options VUndefined VUndefined
          Demo.footer_body) 0%nat).1 = Ok (Demo.save [Demo.cover]).
Proof.
  intros R.
  refine (proj1 (proj2 (proj2
    (@second_pass_failure_returns_cover R Demo.target Demo.plain_options
       VUndefined VUndefined Demo.footer_fields 0%nat 0%nat
       (run (Renderer.pdf_open Demo.target Demo.plain_options VUndefined VUndefined
               Demo.footer_body) 0%nat).2
       (Demo.save [Demo.cover]) 1%nat Demo.failure 1%nat _ _ _ _))));
    vm_compute; reflexivity.
Defined.

Lemma two_pass_render_calls_witness :
  let R := Demo.scripted Demo.healthy in
  let outcome :=
    run (Renderer.pdf Demo.target Demo.plain_options VUndefined VUndefined
           Demo.footer_body) 0%nat in
  length (render_calls (trace outcome.2)) = 2%nat
  ∧ outcome.1 = Ok (Demo.save [Demo.cover; Demo.page2; Demo.page3]).
Proof.
  intros R outcome.
  assert (Hopen :
    run (Renderer.pdf_open Demo.target Demo.plain_options VUndefined VUndefined
           Demo.footer_body) 0%nat
    = (Ok 0%nat,
       (run (Renderer.pdf_open Demo.target Demo.plain_options VUndefined VUndefined
               Demo.footer_body) 0%nat).2)) by (vm_compute; reflexivity).
  destruct (@two_pass_render_calls R Demo.target Demo.plain_options VUndefined
              VUndefined Demo.footer_fields 0%nat 0%nat _ eq_refl Hopen)
    as (_ & _ & Hcalls & st2 & _ & Hmerged).
  split.
  - unfold outcome, Demo.footer_body. rewrite Hcalls. reflexivity.
  - vm_compute. reflexivity.
Defined.

(** C3, as stated, fails: with a non-null [footerTemplate], a browser whose
    first render throws is asked for one render only and the request fails;
    and when the second render throws the result is the cover buffer, not a
    merge (three pages were to be printed). *)
Lemma two_pass_counterexample :
  (let R := Demo.scripted Demo.no_printing in
   let outcome :=
     run (Renderer.pdf Demo.target Demo.plain_options VUndefined VUndefined
            Demo.footer_body) 0%nat in
   outcome.1 = Throw Demo.failure
   ∧ length (render_calls (trace outcome.2)) = 1%nat)
  ∧ (let R := Demo.scripted Demo.cover_only in
     let outcome :=
       run (Renderer.pdf Demo.target Demo.plain_options VUndefined VUndefined
              Demo.footer_body) 0%nat in
     outcome.1 = Ok (Demo.save [Demo.cover])
     ∧ merge_calls (trace outcome.2) = []).
Proof. vm_compute. repeat split; reflexivity. Qed.



(** ** Page sessions *)

Section Sessions.

Context `{Runtime}.

Lemma closePage_emits (P : call → Prop) page :
  (∀ p, P (PageIsClosed p)) → (∀ p, P (PageClose p)) →
  emits P (Renderer.closePage page).
Proof.
  intros HisClosed Hclose. unfold Renderer.closePage.
  apply emits_try_catch; [| intros; apply emits_ret | intros; apply emits_ret].
  destruct page as [p|]; [| apply emits_ret].
  apply emits_bind; [by apply emits_perform | intros [|]].
  - apply emits_ret.
  - by apply emits_perform.
Qed.

Lemma with_page_emits {A} (P : call → Prop) (create : M Page) (rest : Page → M A) :
  emits P create → (∀ page, emits P (rest page)) →
  (∀ p, P (PageIsClosed p)) → (∀ p, P (PageClose p)) →
  emits P (Renderer.with_page create rest).
Proof.
  intros Hcreate Hrest HisClosed Hclose st. unfold Renderer.with_page.
  destruct (Hcreate st) as (tr1 & Htr1 & HP1).
  destruct (create st) as [[page|e] st1]; simpl in *.
  - destruct (emits_try_finally P (rest page) (Renderer.closePage (Some page))
                (Hrest page) (closePage_emits P _ HisClosed Hclose) st1)
      as (tr2 & Htr2 & HP2).
    exists (tr1 ++ tr2)%list. rewrite Htr2, Htr1, app_assoc.
    split; [done | by apply Forall_app].
  - by exists tr1.
Qed.

(** What a whole run emits, read on its trace. *)
Lemma emits_run {A} (P : call → Prop) (m : M A) w c :
  emits P m → c ∈ trace (run m w).2 → P c.
Proof.
  intros Hm Hc. destruct (Hm (State _ w [])) as (tr & Htr & HP).
  unfold run in Hc. rewrite Htr in Hc. simpl in Hc.
  by apply (proj1 (Forall_forall P tr) HP).
Qed.




End Sessions.


(** ** Sessions on every exit path *)

Section Lifecycle.

Context `{Runtime}.

(** When the page opened and is still open at the end, it is closed once,
    whether [close] succeeds or throws, and the outcome of the operation is
    that of its body. *)
Lemma opened_page_closed_once {A} (create : M Page) (rest : Page → M A)
    st page st1 w' :
  create st = (Ok page, st1) →
  close_count page (trace (rest page st1).2) = 0%nat →
  page_isClosed page (world (rest page st1).2) = (Ok false, w') →
  (Renderer.with_page create rest st).1 = (rest page st1).1
  ∧ close_count page (trace (Renderer.with_page create rest st).2) = 1%nat.
Proof.
  intros Hcreate Hnone Hopen.
  destruct (with_page_opened create rest st page st1 Hcreate) as (st3 & -> & Htr).
  simpl. split; [done |]. rewrite Htr. unfold close_count in *.
  rewrite List.filter_app, length_app, Hnone. unfold closing_calls.
  rewrite Hopen. simpl. by rewrite Nat.eqb_refl.
Qed.

(** When [createPage] throws, the operation fails with the same error and
    no session is closed, not even one that [newPage] had opened. *)
Lemma failed_open_closes_nothing url options authorization post body w e st1 :
  run (Renderer.pdf_open url options authorization post body) w = (Throw e, st1) →
  run (Renderer.pdf url options authorization post body) w = (Throw e, st1)
  ∧ ∀ p, close_count p (trace st1) = 0%nat.
Proof.
  intros Hopen. split.
  - unfold run in *. unfold Renderer.pdf. by apply with_page_failed.
  - by destruct (pdf_open_quiet _ _ _ _ _ _ _ _ Hopen) as (_ & _ & Hclose).
Qed.

End Lifecycle.

(** C5 holds on the paths where [createPage] returned, and the failure of
    [close] is swallowed: *)
Lemma close_failure_is_swallowed :
  let R := Demo.scripted Demo.stuck_sessions in
  let outcome :=
    run (Renderer.pdf Demo.target Demo.plain_options VUndefined VUndefined
           VUndefined) 0%nat in
  outcome.1 = Ok (Demo.save [Demo.cover; Demo.page2; Demo.page3])
  ∧ close_count 0%nat (trace outcome.2) = 1%nat.
Proof. vm_compute. split; reflexivity. Qed.

(** C5, where the code departs from it. When the navigation inside
    [createPage] throws, the session that [browser.newPage()] opened is
    never assigned to [page], the finalizer runs [closePage(null)], and the
    session is left open: zero [close] calls, for [pdf], [html] and
    [screenshot] alike. *)
Theorem session_left_open_when_navigation_fails :
  let R := Demo.scripted Demo.unreachable in
  let timeout := Thrown (VStr "Navigation timeout") in
  let printed :=
    run (Renderer.pdf Demo.target Demo.plain_options VUndefined VUndefined
           VUndefined) 0%nat in
  let read :=
    run (Renderer.html Demo.target Demo.plain_options VUndefined VUndefined
           VUndefined) 0%nat in
  let captured :=
    run (Renderer.screenshot Demo.target Demo.plain_options VUndefined VUndefined
           VUndefined) 0%nat in
  (printed.1 = Throw timeout
   ∧ trace printed.2 !! 0%nat = Some BrowserNewPage
   ∧ world printed.2 = 1%nat
   ∧ close_count 0%nat (trace printed.2) = 0%nat)
  ∧ (read.1 = Throw timeout
     ∧ trace read.2 !! 0%nat = Some BrowserNewPage
     ∧ world read.2 = 1%nat
     ∧ close_count 0%nat (trace read.2) = 0%nat)
  ∧ (captured.1 = Throw timeout
     ∧ trace captured.2 !! 0%nat = Some BrowserNewPage
     ∧ world captured.2 = 1%nat
     ∧ close_count 0%nat (trace captured.2) = 0%nat).
Proof. vm_compute. repeat split; reflexivity. Qed.

(** ** The query-based gateway *)

Section Gateway.

Context `{Runtime}.

Lemma error_page_any e1 e2 : error_page e1 = error_page e2.
Proof. reflexivity. Qed.

(** Whatever is thrown inside the [try] is answered by the error page. *)
Lemma dispatch_failure_is_500 (req : QueryGateway.Request) w target :
  truthy (get (QueryGateway.query req) "url") = true →
  QueryGateway.with_scheme (get (QueryGateway.query req) "url") = Ok target →
  ∀ e,
    (QueryGateway.dispatch target
       (get (QueryGateway.query req) "type")
       (get (QueryGateway.query req) "filename")
       (get (QueryGateway.query req) "authorization")
       (QueryGateway.request_options (QueryGateway.query req))
       (VBool (String.eqb (QueryGateway.method req) "POST"))
       (QueryGateway.body req) (State _ w [])).1 = Throw e →
    (run (QueryGateway.app_use req) w).1 = Ok (error_page e).
Proof.
  intros Hurl Hscheme e Hthrow.
  unfold run, QueryGateway.app_use, mbind, M_bind, bind, lift, try_catch.
  rewrite Hurl, Hscheme. simpl.
  destruct (QueryGateway.dispatch _ _ _ _ _ _ _ _) as [[response|e'] st'];
    simpl in *; [discriminate | reflexivity].
Qed.

(** C9. A request to the query-based endpoint whose [url] is absent or
    empty is answered 400 with a plain-text hint, and nothing outside the
    gateway is called; a request whose rendering operation throws is
    answered 500 with the generic message. *)
Theorem missing_url_400_render_failure_500 (req : QueryGateway.Request) w :
  let query := QueryGateway.query req in
  let type := get query "type" in
  let authorization := get query "authorization" in
  let options := QueryGateway.request_options query in
  let post := VBool (String.eqb (QueryGateway.method req) "POST") in
  let body := QueryGateway.body req in
  let answer := run (QueryGateway.app_use req) w in
  ((query !! "url" = None ∨ query !! "url" = Some (VStr "")) →
   answer = (Ok QueryGateway.missing_url, State _ w [])
   ∧ status QueryGateway.missing_url = 400
   ∧ ∃ hint, sent QueryGateway.missing_url = SendValue (VStr hint))
  ∧ (∀ target e,
       truthy (get query "url") = true →
       QueryGateway.with_scheme (get query "url") = Ok target →
       (if strict_eq_str type "pdf" then
          (Renderer.pdf target (delete "contentDispositionType" options)
             authorization post body (State _ w [])).1 = Throw e
        else if strict_eq_str type "screenshot" then
          (Renderer.screenshot target options authorization post body
             (State _ w [])).1 = Throw e
        else
          (Renderer.html target options authorization body VUndefined
             (State _ w [])).1 = Throw e) →
       answer.1 = Ok (error_page e)
       ∧ status (error_page e) = 500
       ∧ sent (error_page e) = SendValue (VStr "Oops, Somehting went wrong")).
Proof.
  intros query type authorization options post body answer. split.
  - intros Habsent. subst answer.
    assert (Hurl : truthy (get query "url") = false).
    { unfold get. by destruct Habsent as [-> | ->]. }
    unfold run, QueryGateway.app_use. fold query. rewrite Hurl. simpl.
    split; [reflexivity |]. split; [reflexivity | by eexists].
  - intros target e Hurl Hscheme Hthrow.
    split; [| split; reflexivity].
    assert (Hdispatch : ∃ e',
      (QueryGateway.dispatch target type (get query "filename") authorization
         options post body (State _ w [])).1 = Throw e').
    { unfold QueryGateway.dispatch, mbind, M_bind, bind, lift, ret.
      destruct (strict_eq_str type "pdf").
      - destruct (url_parse (to_string target)) as [urlObj|e1]; [| by eexists].
        destruct (QueryGateway.pdf_filename _ urlObj) as [name|e2]; [| by eexists].
        destruct (Renderer.pdf _ _ _ _ _ _) as [[pdf|e3] st']; simpl in *;
          [discriminate | by eexists].
      - destruct (strict_eq_str type "screenshot").
        + destruct (Renderer.screenshot _ _ _ _ _ _) as [[[shotType buffer]|e3] st'];
            simpl in *; [discriminate | by eexists].
        + destruct (Renderer.html _ _ _ _ _ _) as [[html|e3] st']; simpl in *;
            [discriminate | by eexists]. }
    destruct Hdispatch as (e' & He').
    subst answer. rewrite (error_page_any e e').
    by apply dispatch_failure_is_500 with (target := target).
Qed.

End Gateway.

Lemma missing_url_400_render_failure_500_witness :
  let R := Demo.scripted Demo.unreachable in
  let without_url : QueryGateway.Request :=
    {| QueryGateway.method := "GET";
       QueryGateway.query := {["type" := VStr "pdf"]};
       QueryGateway.body := VObj ∅ |} in
  let unreachable_target : QueryGateway.Request :=
    {| QueryGateway.method := "GET";
       QueryGateway.query :=
         <["type" := VStr "pdf"]> {["url" := VStr "example.com/reports/q1.data"]};
       QueryGateway.body := VObj ∅ |} in
  run (QueryGateway.app_use without_url) 0%nat
    = (Ok QueryGateway.missing_url, State R 0%nat [])
  ∧ (run (QueryGateway.app_use unreachable_target) 0%nat).1
    = Ok (error_page (Thrown (VStr "Navigation timeout"))).
Proof.
  intros R without_url unreachable_target. split.
  - apply (proj1 (@missing_url_400_render_failure_500 R without_url 0%nat)).
    left. reflexivity.
  - apply (proj2 (@missing_url_400_render_failure_500 R unreachable_target 0%nat)
             (VStr "http://example.com/reports/q1.data")
             (Thrown (VStr "Navigation timeout"))).
    + reflexivity.
    + reflexivity.
    + vm_compute. reflexivity.
Defined.

(** ** File names of PDF responses *)

Section Strings.

Implicit Types (c a : ascii) (s t : string).

Lemma append_cons a s t : String a s ++ t = String a (s ++ t).
Proof. reflexivity. Qed.

Lemma append_nil t : "" ++ t = t.
Proof. reflexivity. Qed.





















End Strings.



(** * Further properties *)

#[local] Set Warnings "-clear-no-such-hyp".

(** ** The sweep and the reads of the cache *)

Section CacheSweep.

Implicit Types (now : Z) (key : string) (htmlCache : gmap string CacheEntry).






End CacheSweep.

(** ** Sessions, once more *)

Section Closing.

Context `{Runtime}.

(** [closePage] never throws, whatever the browser does. On [null] it calls
    nothing; on a session it asks [isClosed] once and calls [close] once
    exactly when the answer is [false]: not when the session is reported
    closed, and not when [isClosed] itself throws. A [close] that throws
    changes nothing of this. *)
Theorem closePage_guarded (page : option Page) (st : state) :
  (Renderer.closePage page st).1 = Ok tt
  ∧ match page with
    | None => (Renderer.closePage page st).2 = st
    | Some p =>
        trace (Renderer.closePage page st).2
        = (trace st ++ PageIsClosed p ::
             match (page_isClosed p (world st)).1 with
             | Ok false => [PageClose p]
             | _ => []
             end)%list
        ∧ world (Renderer.closePage page st).2
          = match page_isClosed p (world st) with
            | (Ok false, w1) => (page_close p w1).2
            | (_, w1) => w1
            end
    end.
Proof.
  split; [apply closePage_ok |].
  destruct page as [p|]; [| reflexivity].
  unfold Renderer.closePage, try_catch, mbind, M_bind, bind, perform, ret.
  destruct (page_isClosed p (world st)) as [[[|]|e] w1]; simpl; [done | | done].
  destruct (page_close p w1) as [[[]|e] w2]; simpl; by rewrite <- app_assoc.
Qed.




Lemma pdf_render_emits (P : call → Prop) page extraOptions body :
  (∀ p opts, P (PagePdf p opts)) → (∀ op, P (PdfLib op)) →
  emits P (Renderer.pdf_render page extraOptions body).
Proof.
  intros Hrender Hmerge. unfold Renderer.pdf_render.
  apply emits_bind; [apply emits_lift | intros footerTemplate].
  apply emits_bind; [apply emits_lift | intros firstMargin].
  apply emits_bind; [apply emits_lift | intros otherMargin].
  destruct (not_nullish footerTemplate).
  - apply emits_bind; [by apply emits_perform | intros pdf1].
    apply emits_try_catch; [by apply emits_perform | intros; apply emits_ret |].
    intros pdf2. eapply emits_weaken; [| apply mergePdfs_emits].
    intros [] Hc; try discriminate. apply Hmerge.
  - apply emits_bind; [by apply emits_perform | intros; apply emits_ret].
Qed.

Lemma screenshot_body_emits (P : call → Prop) page (options : object) :
  let extraOptions := Renderer.screenshot_extra_options options in
  let screenshotOptions := Renderer.screenshot_options extraOptions in
  let animationTimeout :=
    Number (js_or (get options "animationTimeout") (VNum (number_of_Z 0))) in
  (∀ opts, P (PageSetViewport page opts)) →
  (∀ t, P (WaitForAnimations page screenshotOptions t)) →
  P (PageScreenshot page screenshotOptions) →
  emits P
    (fire (PageSetViewport page (Renderer.viewport_options extraOptions))
          (page_setViewport page (Renderer.viewport_options extraOptions)) ;;
     (if number_gt0 animationTimeout
      then perform (WaitForAnimations page screenshotOptions animationTimeout)
                   (waitForAnimations page screenshotOptions animationTimeout)
      else ret tt) ;;
     buffer ← perform (PageScreenshot page screenshotOptions)
                      (page_screenshot page screenshotOptions);
     ret (get extraOptions "screenshotType", buffer)).
Proof.
  intros extraOptions screenshotOptions animationTimeout Hviewport Hwait Hshot.
  apply emits_bind; [by apply emits_fire | intros _].
  apply emits_bind; [| intros _].
  { destruct (number_gt0 _); [by apply emits_perform | apply emits_ret]. }
  apply emits_bind; [by apply emits_perform | intros; apply emits_ret].
Qed.


End Closing.


(** ** What the operations ask of the browser *)

Section Operations.

Context `{Runtime}.

(** Not a media emulation. *)
Lemma createPage_emits_no_media url (options : object) authorization post postData :
  truthy (get options "emulateMediaType") = false →
  emits (λ c, ∀ p media, c ≠ PageEmulateMediaType p media)
        (Renderer.createPage url options authorization post postData).
Proof.
  intros Hmedia. unfold Renderer.createPage. rewrite Hmedia.
  apply emits_bind; [by apply emits_perform | intros page].
  apply emits_bind; [by apply emits_fire | intros _].
  apply emits_bind; [by apply emits_fire | intros _].
  apply emits_bind; [by apply emits_fire | intros _].
  apply emits_bind; [apply emits_ret | intros _].
  apply emits_bind; [| intros _].
  { destruct (truthy (get options "credentials"));
      [by apply emits_perform | apply emits_ret]. }
  apply emits_bind; [by apply emits_perform | intros _].
  apply emits_ret.
Qed.

(** The trace of an operation extends the trace of its [createPage]. *)
Lemma with_page_extends {A} (create : M Page) (rest : Page → M A) st :
  (∀ page, emits (λ _, True) (rest page)) →
  ∃ later, trace (Renderer.with_page create rest st).2
           = (trace (create st).2 ++ later)%list.
Proof.
  intros Hrest. destruct (create st) as [[page|e] st1] eqn:Hcreate.
  - destruct (with_page_opened create rest st page st1 Hcreate) as (st3 & -> & Htr).
    destruct (Hrest page st1) as (tr & Hbody & _).
    simpl. rewrite Htr, Hbody, <- app_assoc. eauto.
  - rewrite (with_page_failed create rest st e st1 Hcreate). simpl.
    exists []. by rewrite app_nil_r.
Qed.

(** With a media type to emulate, [createPage] starts with these calls. *)
Lemma createPage_media_first url (options : object) authorization post postData
    w page w1 :
  truthy (get options "emulateMediaType") = true →
  browser_newPage w = (Ok page, w1) →
  ∃ later,
    trace (run (Renderer.createPage url options authorization post postData) w).2
    = ([BrowserNewPage; PageOn page "error"; PageSetRequestInterception page true;
        PageOn page "request";
        PageEmulateMediaType page (get options "emulateMediaType")] ++ later)%list.
Proof.
  intros Hmedia Hnew.
  unfold run, Renderer.createPage, mbind, M_bind, bind, perform, fire, ret.
  simpl. rewrite Hnew, Hmedia. simpl.
  destruct (page_emulateMediaType _ _ _) as [[[]|e] w2]; simpl; [| by exists []].
  destruct (truthy (get options "credentials")); simpl.
  - destruct (page_authenticate _ _ _) as [[[]|e] w3]; simpl; [| by eexists [_]].
    destruct (page_goto _ _ _ _) as [[[]|e] w4]; simpl; by eexists [_; _].
  - destruct (page_goto _ _ _ _) as [[[]|e] w4]; simpl; by eexists [_].
Qed.

(** [pdf] always emulates a media type, the caller's or "print", as the
    first thing done with the new page; [html] and [screenshot] never
    emulate one, whatever the options say. *)
Theorem media_emulation url options authorization post body w :
  (∀ page w1, browser_newPage w = (Ok page, w1) →
     ∃ later,
       trace (run (Renderer.pdf url options authorization post body) w).2
       = ([BrowserNewPage; PageOn page "error"; PageSetRequestInterception page true;
           PageOn page "request";
           PageEmulateMediaType page
             (js_or (get options "emulateMediaType") (VStr "print"))] ++ later)%list)
  ∧ (∀ c p media,
       c ∈ trace (run (Renderer.html url options authorization post body) w).2
       ∨ c ∈ trace (run (Renderer.screenshot url options authorization post body) w).2 →
       c ≠ PageEmulateMediaType p media).
Proof.
  split.
  - intros page w1 Hnew.
    set (media := js_or (get options "emulateMediaType") (VStr "print")).
    assert (Hget : get (<["emulateMediaType" := media]> (Renderer.page_options options))
                       "emulateMediaType" = media).
    { unfold get. by rewrite lookup_insert_eq. }
    assert (Hmedia : truthy media = true).
    { unfold media, js_or.
      by destruct (truthy (get options "emulateMediaType")) eqn:Hcaller. }
    destruct (createPage_media_first url
                (<["emulateMediaType" := media]> (Renderer.page_options options))
                (param_default authorization (VStr ""))
                (param_default post (VBool true))
                (param_default body (VStr "")) w page w1) as (tr1 & Htr1);
      [by rewrite Hget | done |].
    rewrite Hget in Htr1.
    unfold run, Renderer.pdf in *.
    destruct (with_page_extends
                (Renderer.pdf_open url options authorization post body)
                (λ page, Renderer.pdf_render page (Renderer.pdf_extra_options options)
                           (param_default body (VStr "")))
                (State _ w [])) as (tr2 & Htr2).
    { intros p. by apply pdf_render_emits. }
    rewrite Htr2. unfold Renderer.pdf_open. fold media.
    rewrite Htr1, <- app_assoc. eauto.
  - assert (Hnone : truthy (get (Renderer.page_options options) "emulateMediaType") = false).
    { unfold get, Renderer.page_options. by simplify_map_eq. }
    intros c p media [Hin | Hin].
    + assert (Hemits : emits (λ c, ∀ p media, c ≠ PageEmulateMediaType p media)
                         (Renderer.html url options authorization post body)).
      { unfold Renderer.html. apply with_page_emits; [| | done | done].
        - by apply createPage_emits_no_media.
        - intros page. by apply emits_perform. }
      exact (emits_run _ _ _ _ Hemits Hin p media).
    + assert (Hemits : emits (λ c, ∀ p media, c ≠ PageEmulateMediaType p media)
                         (Renderer.screenshot url options authorization post body)).
      { unfold Renderer.screenshot. apply with_page_emits; [| | done | done].
        - by apply createPage_emits_no_media.
        - intros page. by apply screenshot_body_emits. }
      exact (emits_run _ _ _ _ Hemits Hin p media).
Qed.

End Operations.

Lemma media_emulation_witness :
  let R := Demo.scripted Demo.healthy in
  ∃ later,
    trace (run (Renderer.pdf Demo.target Demo.plain_options VUndefined VUndefined
                  VUndefined) 0%nat).2
    = ([BrowserNewPage; PageOn 0%nat "error"; PageSetRequestInterception 0%nat true;
        PageOn 0%nat "request"; PageEmulateMediaType 0%nat (VStr "print")]
         ++ later)%list.
Proof.
  intros R.
  exact (proj1 (@media_emulation R Demo.target Demo.plain_options VUndefined
                  VUndefined VUndefined 0%nat) 0%nat 1%nat eq_refl).
Defined.

(** ** Screenshots *)

Section Screenshots.

Context `{Runtime}.

Lemma screenshot_type_forwarded (options : object) k :
  k ∉ ["timeout"; "waitUntil"; "credentials"] →
  Renderer.screenshot_extra_options options !! k = options !! k.
Proof.
  intros Hk. rewrite !not_elem_of_cons in Hk. unfold Renderer.screenshot_extra_options.
  rewrite !lookup_delete_ne; [done | | |]; intros <-; intuition congruence.
Qed.

(** Without an [animationTimeout] option [screenshot] never waits for
    animations. With one whose number is positive, once the page is open
    the viewport is set, the animations are awaited with the options of
    the capture, and the capture follows only if the wait did not throw:
    when it throws, nothing is captured, the error is the outcome, and the
    page is closed all the same. *)
Theorem screenshot_waits_for_animations url options authorization post body w :
  let extraOptions := Renderer.screenshot_extra_options options in
  let viewport := Renderer.viewport_options extraOptions in
  let opts := Renderer.screenshot_options extraOptions in
  let animationTimeout :=
    Number (js_or (get options "animationTimeout") (VNum (number_of_Z 0))) in
  let outcome := run (Renderer.screenshot url options authorization post body) w in
  (options !! "animationTimeout" = None →
   ∀ c p o t, c ∈ trace outcome.2 → c ≠ WaitForAnimations p o t)
  ∧ (∀ page st1,
       number_gt0 animationTimeout = true →
       run (Renderer.createPage url (Renderer.page_options options)
              (param_default authorization (VStr "")) (param_default post (VBool true))
              (param_default body (VStr ""))) w = (Ok page, st1) →
       match waitForAnimations page opts animationTimeout
               (page_setViewport page viewport (world st1)) with
       | (Throw e, w2) =>
           outcome.1 = Throw e
           ∧ trace outcome.2
             = (trace st1
                ++ [PageSetViewport page viewport;
                    WaitForAnimations page opts animationTimeout]
                ++ closing_calls page w2)%list
       | (Ok _, w2) =>
           outcome.1
           = match (page_screenshot page opts w2).1 with
             | Ok buffer => Ok (get extraOptions "screenshotType", buffer)
             | Throw e => Throw e
             end
           ∧ trace outcome.2
             = (trace st1
                ++ [PageSetViewport page viewport;
                    WaitForAnimations page opts animationTimeout;
                    PageScreenshot page opts]
                ++ closing_calls page (page_screenshot page opts w2).2)%list
       end).
Proof.
  intros extraOptions viewport opts animationTimeout outcome. split.
  - intros Hnone c p o t Hin.
    assert (Hzero : number_gt0 animationTimeout = false).
    { unfold animationTimeout, get. rewrite Hnone. reflexivity. }
    assert (Hemits : emits (λ c, ∀ p o t, c ≠ WaitForAnimations p o t)
                       (Renderer.screenshot url options authorization post body)).
    { unfold Renderer.screenshot. apply with_page_emits; [| | done | done].
      - eapply emits_weaken; [| apply createPage_emits]. by intros [].
      - intros page. fold extraOptions viewport opts animationTimeout.
        rewrite Hzero.
        apply emits_bind; [by apply emits_fire | intros _].
        apply emits_bind; [apply emits_ret | intros _].
        apply emits_bind; [by apply emits_perform | intros; apply emits_ret]. }
    exact (emits_run _ _ _ _ Hemits Hin p o t).
  - intros page st1 Hpositive Hopen. subst outcome.
    unfold run in *. unfold Renderer.screenshot.
    fold extraOptions viewport opts animationTimeout.
    match goal with
    | |- context [Renderer.with_page ?create ?rest _] =>
        destruct (with_page_opened create rest _ page st1 Hopen) as (st3 & -> & Htr)
    end.
    simpl fst. simpl snd. rewrite Htr. clear Htr.
    unfold mbind, M_bind, bind, fire, perform, ret. rewrite Hpositive. simpl.
    destruct (waitForAnimations page opts animationTimeout
                (page_setViewport page viewport (world st1))) as [[[]|e] w2]; simpl.
    + destruct (page_screenshot page opts w2) as [[buffer|e] w3]; simpl;
        (split; [done | by rewrite <- !app_assoc]).
    + split; [done | by rewrite <- !app_assoc].
Qed.

(** The capture is asked for the type given as [screenshotType], "png"
    when absent, under the name [type]; [quality] is the caller's number
    when that is neither 0 nor [NaN], and otherwise 0 for an absent type or
    "png" and 100 for any other type; every other option is handed on as
    it came, the viewport sizes among them. *)
Theorem screenshot_capture_options url options authorization post body w page opts :
  PageScreenshot page opts
    ∈ trace (run (Renderer.screenshot url options authorization post body) w).2 →
  opts !! "type" = Some (js_or (get options "screenshotType") (VStr "png"))
  ∧ opts !! "screenshotType" = None
  ∧ (number_truthy (Number (get options "quality")) = true →
     opts !! "quality" = Some (VNum (Number (get options "quality"))))
  ∧ (number_truthy (Number (get options "quality")) = false →
     (options !! "screenshotType" = None
      ∨ options !! "screenshotType" = Some (VStr "png")) →
     opts !! "quality" = Some (VNum (number_of_Z 0)))
  ∧ (number_truthy (Number (get options "quality")) = false →
     ∀ t, options !! "screenshotType" = Some (VStr t) → t ≠ "png" →
          opts !! "quality" = Some (VNum (number_of_Z 100)))
  ∧ (∀ k, k ∉ ["type"; "quality"; "fullPage"; "omitBackground"; "screenshotType";
               "timeout"; "waitUntil"; "credentials"] →
          opts !! k = options !! k).
Proof.
  intros Hin.
  assert (Hemits : emits (λ c, ∀ p o, c = PageScreenshot p o →
                     o = Renderer.screenshot_options
                           (Renderer.screenshot_extra_options options))
                     (Renderer.screenshot url options authorization post body)).
  { unfold Renderer.screenshot. apply with_page_emits; [| | done | done].
    - eapply emits_weaken; [| apply createPage_emits]. by intros [].
    - intros p0. apply screenshot_body_emits; try done. by intros p o [= _ ->]. }
  rewrite (emits_run _ _ _ _ Hemits Hin page opts eq_refl).
  assert (Hget : ∀ k, k ∉ ["timeout"; "waitUntil"; "credentials"] →
            get (Renderer.screenshot_extra_options options) k = get options k).
  { intros k Hk. unfold get. by rewrite screenshot_type_forwarded. }
  assert (Hkeys : ∀ k : string, k = "screenshotType" ∨ k = "quality" →
            k ∉ ["timeout"; "waitUntil"; "credentials"]).
  { intros k [-> | ->]; rewrite !not_elem_of_cons;
      (repeat split; [discriminate .. | apply not_elem_of_nil]). }
  assert (Hquality :
    Renderer.screenshot_options (Renderer.screenshot_extra_options options) !! "quality"
    = Some (VNum (number_or (Number (get options "quality"))
        (match get options "screenshotType" with
         | VUndefined => number_of_Z 0
         | _ => if strict_eq_str (get options "screenshotType") "png"
                then number_of_Z 0 else number_of_Z 100
         end)))).
  { unfold Renderer.screenshot_options.
    rewrite !(Hget "screenshotType"), !(Hget "quality") by auto.
    by simplify_map_eq. }
  split_and!.
  - unfold Renderer.screenshot_options.
    rewrite !(Hget "screenshotType") by auto. by simplify_map_eq.
  - unfold Renderer.screenshot_options. by simplify_map_eq.
  - intros Htruthy. rewrite Hquality. unfold number_or. by rewrite Htruthy.
  - intros Hfalsy Htype. rewrite Hquality. unfold number_or.
    rewrite Hfalsy. unfold get. by destruct Htype as [-> | ->].
  - intros Hfalsy t Htype Hother. rewrite Hquality. unfold number_or.
    rewrite Hfalsy. unfold get. rewrite Htype. simpl.
    by destruct (String.eqb_spec t "png").
  - intros k Hk. rewrite !not_elem_of_cons in Hk.
    unfold Renderer.screenshot_options.
    rewrite !lookup_insert_ne by (intros <-; intuition congruence).
    rewrite !lookup_delete_ne by (intros <-; intuition congruence).
    apply screenshot_type_forwarded. rewrite !not_elem_of_cons. intuition.
Qed.

End Screenshots.

Lemma screenshot_waits_for_animations_witness :
  let R := Demo.scripted Demo.healthy in
  let options : object := {["animationTimeout" := VStr "500"]} in
  let outcome :=
    run (Renderer.screenshot Demo.target options VUndefined VUndefined VUndefined)
      0%nat in
  outcome.1 = Ok (VUndefined, [Byte.x89])
  ∧ ∀ c p o t,
      c ∈ trace (run (Renderer.screenshot Demo.target Demo.plain_options VUndefined
                        VUndefined VUndefined) 0%nat).2 →
      c ≠ WaitForAnimations p o t.
Proof.
  intros R options outcome. split.
  - assert (Hopen :
      run (Renderer.createPage Demo.target (Renderer.page_options options)
             (VStr "") (VBool true) (VStr "")) 0%nat
      = (Ok 0%nat,
         (run (Renderer.createPage Demo.target (Renderer.page_options options)
                 (VStr "") (VBool true) (VStr "")) 0%nat).2))
      by (vm_compute; reflexivity).
    destruct (proj2 (@screenshot_waits_for_animations R Demo.target options
                       VUndefined VUndefined VUndefined 0%nat) 0%nat _ eq_refl Hopen)
      as [Hresult _].
    exact Hresult.
  - exact (proj1 (@screenshot_waits_for_animations R Demo.target Demo.plain_options
                    VUndefined VUndefined VUndefined 0%nat) eq_refl).
Defined.

Lemma screenshot_capture_options_witness :
  let R := Demo.scripted Demo.healthy in
  let options : object := <["width" := VStr "1024"]> {["screenshotType" := VStr "jpeg"]} in
  let opts :=
    Renderer.screenshot_options (Renderer.screenshot_extra_options options) in
  opts !! "type" = Some (VStr "jpeg")
  ∧ opts !! "quality" = Some (VNum (number_of_Z 100))
  ∧ opts !! "width" = Some (VStr "1024").
Proof.
  intros R options opts.
  assert (Hin : PageScreenshot 0%nat opts
                  ∈ trace (run (Renderer.screenshot Demo.target options VUndefined
                                  VUndefined VUndefined) 0%nat).2).
  { apply (list_elem_of_lookup_2 _ 6%nat). vm_compute. reflexivity. }
  destruct (@screenshot_capture_options R Demo.target options VUndefined VUndefined
              VUndefined 0%nat 0%nat opts Hin)
    as (Htype & _ & _ & _ & Hquality & Hforward).
  split; [exact Htype |]. split.
  - exact (Hquality eq_refl "jpeg" eq_refl ltac:(discriminate)).
  - apply Hforward. rewrite !not_elem_of_cons.
    repeat split; try discriminate. apply not_elem_of_nil.
Defined.

(** ** Two passes, end to end *)

Section TwoPass.

Context `{Runtime}.

Lemma copy_from_run (todo done pdfDoc : list PdfPage) st :
  Renderer.copy_from (done ++ todo) (length todo) (length done) pdfDoc st
  = (Ok (pdfDoc ++ todo)%list,
     State _ (world st)
       (trace st ++ flat_map (λ i, [PdfLib (CopyPages i); PdfLib AddPage])
                      (seq (length done) (length todo)))).
Proof.
  revert done pdfDoc st.
  induction todo as [|page todo IH]; intros done pdfDoc st; simpl.
  - rewrite !app_nil_r. by destruct st.
  - unfold mbind, M_bind, bind, Renderer.copyPage, Renderer.addPage,
      Renderer.pdflib, perform.
    rewrite list_lookup_middle by done. simpl.
    replace (done ++ page :: todo)%list with ((done ++ [page]) ++ todo)%list
      by (by rewrite <- app_assoc).
    replace (S (length done)) with (length (done ++ [page])%list)
      by (rewrite length_app; simpl; lia).
    rewrite IH. simpl. by rewrite <- !app_assoc.
Qed.

(** The calls of a merge that succeeds: one copy and one append for the
    cover, then one copy and one append per page of the body, in order. *)
Lemma mergePdfs_run pdf1 pdf2 coverPage others pages st :
  pdf_load pdf1 = Ok (coverPage :: others) →
  pdf_load pdf2 = Ok pages →
  Renderer.mergePdfs pdf1 pdf2 st
  = (Ok (pdf_save (coverPage :: pages)),
     State _ (world st)
       (trace st
        ++ [PdfLib Create; PdfLib (Load pdf1); PdfLib (CopyPages 0); PdfLib AddPage;
            PdfLib (Load pdf2)]
        ++ flat_map (λ i, [PdfLib (CopyPages i); PdfLib AddPage]) (seq 0 (length pages))
        ++ [PdfLib Save])).
Proof.
  intros Hcover Hbody.
  unfold Renderer.mergePdfs, mbind, M_bind, bind, Renderer.copyPage,
    Renderer.addPage, Renderer.pdflib, perform.
  simpl. rewrite Hcover. simpl. rewrite Hbody. simpl.
  match goal with
  | |- context [Renderer.copy_from pages (length pages) 0 ?doc ?s] =>
      pose proof (copy_from_run pages [] doc s) as Hloop
  end.
  simpl in Hloop. rewrite Hloop. simpl. by rewrite <- !app_assoc.
Qed.

Lemma merge_calls_all tr : Forall (λ c, is_merge c = true) tr → merge_calls tr = tr.
Proof.
  induction 1 as [|c tr Hc _ IH]; [done |].
  unfold merge_calls in *. simpl. by rewrite Hc, IH.
Qed.

Lemma copies_are_merge_calls start n :
  Forall (λ c, is_merge c = true)
    (flat_map (λ i, [PdfLib (CopyPages i); PdfLib AddPage]) (seq start n)).
Proof.
  revert start. induction n as [|n IH]; intros start; simpl; [done |].
  repeat constructor. apply IH.
Qed.

(** When both renders succeed and their buffers decode, with at least one
    page in the first, [pdf] returns the encoding of the first page of the
    first render followed by all the pages of the second, after exactly
    two renders; the merge copies [1 + N] pages, one at a time, and
    encodes once. *)
Theorem two_pass_document url options authorization post (b : object)
    w page st1 pdf1 w2 pdf2 w3 coverPage others pages :
  let extraOptions := Renderer.pdf_extra_options options in
  let first := Renderer.first_pass_options extraOptions
                 (get b "footerTemplate") (get b "footerFirstMarginBottom") in
  let second := Renderer.second_pass_options extraOptions
                  (get b "footerTemplate") (get b "footerOtherMarginBottom") in
  let outcome := run (Renderer.pdf url options authorization post (VObj b)) w in
  not_nullish (get b "footerTemplate") = true →
  run (Renderer.pdf_open url options authorization post (VObj b)) w = (Ok page, st1) →
  page_pdf page first (world st1) = (Ok pdf1, w2) →
  page_pdf page second w2 = (Ok pdf2, w3) →
  pdf_load pdf1 = Ok (coverPage :: others) →
  pdf_load pdf2 = Ok pages →
  outcome.1 = Ok (pdf_save (coverPage :: pages))
  ∧ render_calls (trace outcome.2) = [PagePdf page first; PagePdf page second]
  ∧ merge_calls (trace outcome.2)
    = ([PdfLib Create; PdfLib (Load pdf1); PdfLib (CopyPages 0); PdfLib AddPage;
        PdfLib (Load pdf2)]
       ++ flat_map (λ i, [PdfLib (CopyPages i); PdfLib AddPage]) (seq 0 (length pages))
       ++ [PdfLib Save])%list.
Proof.
  intros extraOptions first second outcome Hfooter Hopen Hfirst Hsecond Hcover Hbody.
  destruct (pdf_open_quiet _ _ _ _ _ _ _ _ Hopen) as (Hrender & Hmerge & _).
  subst outcome. unfold run in *. unfold Renderer.pdf.
  destruct (with_page_opened _
              (λ page, Renderer.pdf_render page (Renderer.pdf_extra_options options)
                         (param_default (VObj b) (VStr "")))
              _ _ _ Hopen) as (st3 & -> & Htr).
  simpl param_default in *. simpl fst. simpl snd. rewrite Htr. clear Htr.
  rewrite (pdf_render_two_pass _ _ _ _ Hfooter).
  fold extraOptions first second. rewrite Hfirst, Hsecond.
  rewrite (mergePdfs_run _ _ _ _ _ _ Hcover Hbody). simpl.
  pose proof (copies_are_merge_calls 0 (length pages)) as Hcopies.
  split; [done |]. split.
  - rewrite !render_calls_app, Hrender, closing_calls_not_render. simpl.
    unfold render_calls at 1. rewrite List.filter_app. simpl.
    erewrite filter_none; [done | | exact Hcopies]. by intros [].
  - rewrite !merge_calls_app, Hmerge, closing_calls_not_merge. simpl.
    rewrite merge_calls_app. f_equal. f_equal. f_equal. f_equal. f_equal.
    rewrite (merge_calls_all _ Hcopies). by rewrite app_nil_r.
Qed.

(** The fallback to the cover is for a second render that throws, not for
    a merge that throws: when both renders succeeded and a buffer does not
    decode, [pdf] fails with the error of the decoder. A first buffer that
    does not decode ends the merge before the second is looked at. *)
Theorem merge_failure_is_not_swallowed url options authorization post (b : object)
    w page st1 pdf1 w2 pdf2 w3 e :
  let extraOptions := Renderer.pdf_extra_options options in
  let first := Renderer.first_pass_options extraOptions
                 (get b "footerTemplate") (get b "footerFirstMarginBottom") in
  let second := Renderer.second_pass_options extraOptions
                  (get b "footerTemplate") (get b "footerOtherMarginBottom") in
  let outcome := run (Renderer.pdf url options authorization post (VObj b)) w in
  not_nullish (get b "footerTemplate") = true →
  run (Renderer.pdf_open url options authorization post (VObj b)) w = (Ok page, st1) →
  page_pdf page first (world st1) = (Ok pdf1, w2) →
  page_pdf page second w2 = (Ok pdf2, w3) →
  (pdf_load pdf1 = Throw e →
   outcome.1 = Throw e
   ∧ merge_calls (trace outcome.2) = [PdfLib Create; PdfLib (Load pdf1)])
  ∧ (∀ coverPage others,
       pdf_load pdf1 = Ok (coverPage :: others) → pdf_load pdf2 = Throw e →
       outcome.1 = Throw e
       ∧ merge_calls (trace outcome.2)
         = [PdfLib Create; PdfLib (Load pdf1); PdfLib (CopyPages 0); PdfLib AddPage;
            PdfLib (Load pdf2)]).
Proof.
  intros extraOptions first second outcome Hfooter Hopen Hfirst Hsecond.
  destruct (pdf_open_quiet _ _ _ _ _ _ _ _ Hopen) as (_ & Hmerge & _).
  subst outcome. unfold run in *. unfold Renderer.pdf.
  destruct (with_page_opened _
              (λ page, Renderer.pdf_render page (Renderer.pdf_extra_options options)
                         (param_default (VObj b) (VStr "")))
              _ _ _ Hopen) as (st3 & -> & Htr).
  simpl param_default in *. simpl fst. simpl snd. rewrite Htr. clear Htr.
  rewrite (pdf_render_two_pass _ _ _ _ Hfooter).
  fold extraOptions first second. rewrite Hfirst, Hsecond.
  unfold Renderer.mergePdfs, mbind, M_bind, bind, Renderer.copyPage,
    Renderer.addPage, Renderer.pdflib, perform.
  simpl. split.
  - intros Hcover. rewrite Hcover. simpl. split; [done |].
    rewrite !merge_calls_app, Hmerge, closing_calls_not_merge. done.
  - intros coverPage others Hcover Hbody. rewrite Hcover. simpl.
    rewrite Hbody. simpl. split; [done |].
    rewrite !merge_calls_app, Hmerge, closing_calls_not_merge. done.
Qed.

(** An operation is determined by what follows the opening of the page. *)
Lemma with_page_ext {A} (create : M Page) (rest1 rest2 : Page → M A) st :
  (∀ page st', rest1 page st' = rest2 page st') →
  Renderer.with_page create rest1 st = Renderer.with_page create rest2 st.
Proof.
  intros Hrest. unfold Renderer.with_page, try_finally.
  destruct (create st) as [[page|e] st1]; [| done]. by rewrite Hrest.
Qed.

(** Without footer template the two-pass renderer is the renderer it
    replaced: for every request whose body is not [null] and has no
    [footerTemplate] (or a [null] one), and from every state of the
    browser, [pdf] makes the same calls and has the same outcome as the
    [pdf] of src/src/renderer.js. *)
Theorem legacy_pdf_agrees url options authorization post body footerTemplate st :
  get_prop (param_default body (VStr "")) "footerTemplate" = Ok footerTemplate →
  not_nullish footerTemplate = false →
  Renderer.pdf url options authorization post body st
  = LegacyRenderer.pdf url options authorization post body st.
Proof.
  intros Hfooter Hnull. unfold Renderer.pdf, LegacyRenderer.pdf.
  apply with_page_ext. intros page st'.
  rewrite (pdf_render_single _ _ _ _ _ Hfooter Hnull).
  unfold mbind, M_bind, bind, perform, ret. simpl.
  by destruct (page_pdf _ _ _) as [[buffer|e] w1].
Qed.

End TwoPass.

Lemma two_pass_document_witness :
  let R := Demo.scripted Demo.healthy in
  let outcome :=
    run (Renderer.pdf Demo.target Demo.plain_options VUndefined VUndefined
           Demo.footer_body) 0%nat in
  outcome.1 = Ok (Demo.save [Demo.cover; Demo.page2; Demo.page3])
  ∧ length (merge_calls (trace outcome.2)) = 10%nat.
Proof.
  intros R outcome.
  assert (Hopen :
    run (Renderer.pdf_open Demo.target Demo.plain_options VUndefined VUndefined
           Demo.footer_body) 0%nat
    = (Ok 0%nat,
       (run (Renderer.pdf_open Demo.target Demo.plain_options VUndefined VUndefined
               Demo.footer_body) 0%nat).2)) by (vm_compute; reflexivity).
  destruct (@two_pass_document R Demo.target Demo.plain_options VUndefined VUndefined
              Demo.footer_fields 0%nat 0%nat _
              (Demo.save [Demo.cover]) 1%nat (Demo.save [Demo.page2; Demo.page3]) 1%nat
              Demo.cover [] [Demo.page2; Demo.page3]
              eq_refl Hopen ltac:(vm_compute; reflexivity)
              ltac:(vm_compute; reflexivity) eq_refl eq_refl)
    as (Hresult & _ & Hcalls).
  split; [exact Hresult |].
  unfold outcome, Demo.footer_body. rewrite Hcalls. reflexivity.
Defined.

Lemma legacy_pdf_agrees_witness :
  let R := Demo.scripted Demo.healthy in
  Renderer.pdf Demo.target Demo.plain_options VUndefined VUndefined (VStr "")
    (State R 0%nat [])
  = LegacyRenderer.pdf Demo.target Demo.plain_options VUndefined VUndefined (VStr "")
      (State R 0%nat []).
Proof.
  intros R.
  exact (@legacy_pdf_agrees R Demo.target Demo.plain_options VUndefined VUndefined
           (VStr "") VUndefined (State R 0%nat []) eq_refl eq_refl).
Defined.

Lemma merge_failure_is_not_swallowed_witness :
  let R := Garbled.browser in
  (run (Renderer.pdf Demo.target Demo.plain_options VUndefined VUndefined
          Demo.footer_body) 0%nat).1
  = Throw (Thrown (VStr "Failed to parse PDF document")).
Proof.
  intros R.
  assert (Hopen :
    run (Renderer.pdf_open Demo.target Demo.plain_options VUndefined VUndefined
           Demo.footer_body) 0%nat
    = (Ok 0%nat,
       (run (Renderer.pdf_open Demo.target Demo.plain_options VUndefined VUndefined
               Demo.footer_body) 0%nat).2)) by (vm_compute; reflexivity).
  destruct (@merge_failure_is_not_swallowed R Demo.target Demo.plain_options
              VUndefined VUndefined Demo.footer_fields 0%nat 0%nat _
              (Demo.save [Demo.cover]) 1%nat [Byte.x02] 1%nat
              (Thrown (VStr "Failed to parse PDF document"))
              eq_refl Hopen ltac:(vm_compute; reflexivity)
              ltac:(vm_compute; reflexivity)) as [_ Hbody].
  exact (proj1 (Hbody Demo.cover [] eq_refl eq_refl)).
Defined.

(** ** The query-based gateway, beyond its error codes *)

Section Answers.

Context `{Runtime}.

Lemma includes_scheme s : Str.includes "://" ("http://" ++ s) = true.
Proof.
  rewrite !append_cons, append_nil. by destruct s.
Qed.

Lemma with_scheme_string s : ∃ target, QueryGateway.with_scheme (VStr s) = Ok (VStr target).
Proof.
  unfold QueryGateway.with_scheme. destruct (Str.includes "://" s); by eexists.
Qed.

(** A string [url] reaches the renderer with a scheme: as it came when it
    contains "://", behind "http://" otherwise; doing it twice changes
    nothing more. *)
Theorem with_scheme_adds_scheme (s : string) :
  ∃ target,
    QueryGateway.with_scheme (VStr s) = Ok (VStr target)
    ∧ Str.includes "://" target = true
    ∧ (Str.includes "://" s = true → target = s)
    ∧ (Str.includes "://" s = false → target = "http://" ++ s)
    ∧ QueryGateway.with_scheme (VStr target) = Ok (VStr target).
Proof.
  unfold QueryGateway.with_scheme.
  destruct (Str.includes "://" s) eqn:Hscheme.
  - exists s. rewrite Hscheme. by split_and!.
  - exists ("http://" ++ s). rewrite includes_scheme. by split_and!.
Qed.

(** What [screenshot] returns beside the buffer is the [screenshotType]
    option as it came. *)
Lemma screenshot_returns_type url options authorization post body st shotType buffer st' :
  Renderer.screenshot url options authorization post body st
  = (Ok (shotType, buffer), st') →
  shotType = get options "screenshotType".
Proof.
  unfold Renderer.screenshot. intros Hrun.
  match type of Hrun with
  | Renderer.with_page ?create ?rest _ = _ =>
      destruct (create st) as [[page|e] st1] eqn:Hcreate;
      [ destruct (with_page_opened create rest st page st1 Hcreate) as (st3 & Hwith & _)
      | rewrite (with_page_failed create rest st e st1 Hcreate) in Hrun; discriminate ]
  end.
  rewrite Hwith in Hrun. injection Hrun as Hresult _. revert Hresult.
  unfold mbind, M_bind, bind, fire, perform, ret. simpl.
  assert (Htype : get (Renderer.screenshot_extra_options options) "screenshotType"
                  = get options "screenshotType").
  { unfold get, Renderer.screenshot_extra_options. by rewrite !lookup_delete_ne. }
  destruct (number_gt0 _); simpl.
  - destruct (waitForAnimations _ _ _ _) as [[[]|e] w2]; simpl; [| discriminate].
    destruct (page_screenshot _ _ _) as [[shot|e] w3]; simpl; [| discriminate].
    intros [= <- _]. exact Htype.
  - destruct (page_screenshot _ _ _) as [[shot|e] w3]; simpl; [| discriminate].
    intros [= <- _]. exact Htype.
Qed.

(** Every answer of the [switch] that is not an error has status 200, and
    its [Content-Length] is the length of the buffer it sends. *)
Lemma dispatch_answer url type filename authorization options post body st answer st' :
  QueryGateway.dispatch url type filename authorization options post body st
  = (Ok answer, st') →
  status answer = 200
  ∧ match sent answer with
    | SendBuffer buffer =>
        headers answer !! "Content-Length" = Some (buffer_length buffer)
        ∧ headers answer !! "Content-Type"
          = Some (VStr (if strict_eq_str type "pdf" then "application/pdf"
                        else "image/" ++ to_string
                               (js_or (get options "screenshotType") (VStr "png"))))
    | SendValue content =>
        headers answer = ∅ ∧ ∃ text, content = VStr text
    end.
Proof.
  unfold QueryGateway.dispatch, mbind, M_bind, bind, lift, ret.
  destruct (strict_eq_str type "pdf").
  - destruct (url_parse (to_string url)) as [urlObj|e1]; [| discriminate].
    destruct (QueryGateway.pdf_filename filename urlObj) as [name|e2]; [| discriminate].
    destruct (Renderer.pdf _ _ _ _ _ _) as [[pdf|e3] st1]; [| discriminate].
    destruct (contentDisposition _ _) as [disposition|e4]; [| discriminate].
    intros [= <- <-]. simpl. by simplify_map_eq.
  - destruct (strict_eq_str type "screenshot").
    + destruct (Renderer.screenshot url options authorization post body st)
        as [[[shotType buffer]|e3] st1] eqn:Hshot; [| discriminate].
      intros [= <- <-]. simpl.
      pose proof (screenshot_returns_type _ _ _ _ _ _ _ _ _ Hshot) as Htype.
      rewrite Htype. by simplify_map_eq.
    + destruct (Renderer.html _ _ _ _ _ _) as [[text|e3] st1]; [| discriminate].
      intros [= <- <-]. simpl. eauto.
Qed.

(** A request whose [url] is a non-empty string is always answered, with
    200 or, whatever went wrong, with 500; what it sends with 200 carries
    the length of the buffer sent and the content type of the operation.
    A [url] parsed as an object (as in [?url[a]=b]) is never answered: the
    handler rejects before its [try], with no call made. *)
Theorem url_parameter_shapes (req : QueryGateway.Request) w :
  (∀ s, get (QueryGateway.query req) "url" = VStr s → s ≠ "" →
     ∃ answer st,
       run (QueryGateway.app_use req) w = (Ok answer, st)
       ∧ (status answer = 500 ∧ answer = error_page (TypeError "")
          ∨ status answer = 200
            ∧ match sent answer with
              | SendBuffer buffer =>
                  headers answer !! "Content-Length" = Some (buffer_length buffer)
              | SendValue content => headers answer = ∅
              end))
  ∧ (∀ fields, get (QueryGateway.query req) "url" = VObj fields →
       ∃ msg, run (QueryGateway.app_use req) w = (Throw (TypeError msg), State _ w [])).
Proof.
  split.
  - intros s Hurl Hs.
    destruct (with_scheme_string s) as (target & Htarget).
    assert (Htruthy : truthy (VStr s) = true).
    { simpl. by destruct (String.eqb_spec s ""). }
    unfold run, QueryGateway.app_use, mbind, M_bind, bind, lift, try_catch.
    rewrite Hurl, Htruthy, Htarget. cbn [negb].
    destruct (QueryGateway.dispatch _ _ _ _ _ _ _ _) as [[answer|e] st'] eqn:Hdispatch.
    + destruct (dispatch_answer _ _ _ _ _ _ _ _ _ _ Hdispatch) as [Hstatus Hsent].
      exists answer, st'. split; [done |]. right. split; [done |].
      destruct (sent answer); [apply Hsent | apply Hsent].
    + exists (error_page e), st'. split; [done |]. by left.
  - intros fields Hurl.
    unfold run, QueryGateway.app_use, mbind, M_bind, bind, lift.
    rewrite Hurl. simpl. eauto.
Qed.

(** A PDF request whose URL does not parse, or whose [filename] parameter
    is not a string (as in [?filename[]=a]), is answered 500 before any
    session is opened. *)
Theorem early_failures_open_no_session (req : QueryGateway.Request) w target :
  truthy (get (QueryGateway.query req) "url") = true →
  QueryGateway.with_scheme (get (QueryGateway.query req) "url") = Ok target →
  strict_eq_str (get (QueryGateway.query req) "type") "pdf" = true →
  (∃ e, url_parse (to_string target) = Throw e)
  ∨ (truthy (get (QueryGateway.query req) "filename") = true
     ∧ ∀ s, get (QueryGateway.query req) "filename" ≠ VStr s) →
  run (QueryGateway.app_use req) w = (Ok (error_page (TypeError "")), State _ w []).
Proof.
  intros Hurl Hscheme Htype Hearly.
  unfold run, QueryGateway.app_use, mbind, M_bind, bind, lift, try_catch.
  rewrite Hurl, Hscheme. simpl.
  unfold QueryGateway.dispatch, mbind, M_bind, bind, lift. rewrite Htype.
  destruct Hearly as [(e & ->) | (Htruthy & Hshape)]; [done |].
  destruct (url_parse (to_string target)) as [urlObj|e]; [| done].
  unfold QueryGateway.pdf_filename. rewrite Htruthy. simpl.
  destruct (get (QueryGateway.query req) "filename") eqn:Hname; try done.
  by destruct (Hshape s).
Qed.

End Answers.

Lemma with_scheme_adds_scheme_witness :
  let R := Demo.scripted Demo.healthy in
  QueryGateway.with_scheme (VStr "example.com/reports/q1.data")
    = Ok (VStr "http://example.com/reports/q1.data")
  ∧ QueryGateway.with_scheme (VStr "https://example.com/")
    = Ok (VStr "https://example.com/").
Proof.
  intros R.
  destruct (@with_scheme_adds_scheme R "example.com/reports/q1.data")
    as (t1 & H1 & _ & _ & Hadd & _).
  destruct (@with_scheme_adds_scheme R "https://example.com/")
    as (t2 & H2 & _ & Hkeep & _).
  rewrite (Hadd eq_refl) in H1. rewrite (Hkeep eq_refl) in H2.
  split; [exact H1 | exact H2].
Defined.

Lemma url_parameter_shapes_witness :
  let R := Demo.scripted Demo.healthy in
  let nested : QueryGateway.Request :=
    {| QueryGateway.method := "GET";
       QueryGateway.query := {["url" := VObj {["a" := VStr "b"]}]};
       QueryGateway.body := VObj ∅ |} in
  let plain : QueryGateway.Request :=
    {| QueryGateway.method := "GET";
       QueryGateway.query := {["url" := VStr "example.com"]};
       QueryGateway.body := VObj ∅ |} in
  (∃ msg, run (QueryGateway.app_use nested) 0%nat = (Throw (TypeError msg), State R 0%nat []))
  ∧ ∃ answer st, run (QueryGateway.app_use plain) 0%nat = (Ok answer, st).
Proof.
  intros R nested plain. split.
  - exact (proj2 (@url_parameter_shapes R nested 0%nat) {["a" := VStr "b"]} eq_refl).
  - destruct (proj1 (@url_parameter_shapes R plain 0%nat) "example.com" eq_refl
                ltac:(discriminate)) as (answer & st & Hrun & _).
    eauto.
Defined.

Lemma early_failures_open_no_session_witness :
  let R := Demo.scripted Demo.healthy in
  let req : QueryGateway.Request :=
    {| QueryGateway.method := "GET";
       QueryGateway.query :=
         <["filename" := VArr [VStr "a"]]>
           (<["type" := VStr "pdf"]> {["url" := VStr "example.com"]});
       QueryGateway.body := VObj ∅ |} in
  run (QueryGateway.app_use req) 0%nat = (Ok (error_page (TypeError "")), State R 0%nat []).
Proof.
  intros R req.
  apply (@early_failures_open_no_session R req 0%nat (VStr "http://example.com"));
    [reflexivity | reflexivity | reflexivity |].
  right. split; [reflexivity | discriminate].
Defined.

(** ** Generated keys *)

Section Keys.

Lemma to_int32_small (z : Z) : 0 <= z < 16 → (z + 2 ^ 31) mod 2 ^ 32 - 2 ^ 31 = z.
Proof.
  intros Hz. change (2 ^ 31) with 2147483648. change (2 ^ 32) with 4294967296.
  rewrite Z.mod_small; lia.
Qed.

(** [Math.random() * 16 | 0] is one of 0, ..., 15. *)
Lemma nibble_range (x : Q) :
  (0 <= x)%Q → (x < 1)%Q → 0 <= Uuid.to_int32 (Qmult x (inject_Z 16)) < 16.
Proof.
  intros Hlow Hhigh. unfold Uuid.to_int32.
  assert (Hnonneg : (inject_Z 0 <= x * inject_Z 16)%Q).
  { change (inject_Z 0) with (0 * inject_Z 16)%Q. by apply Qmult_le_compat_r. }
  rewrite (proj2 (Qle_bool_iff _ _) Hnonneg).
  assert (Hfloor : 0 <= Qfloor (x * inject_Z 16) < 16).
  { split.
    - rewrite <- (Qfloor_Z 0). by apply Qfloor_resp_le.
    - rewrite Zlt_Qlt. eapply Qle_lt_trans; [apply Qfloor_le |].
      change (inject_Z 16) with (1 * inject_Z 16)%Q at 2.
      by apply Qmult_lt_compat_r. }
  by rewrite to_int32_small.
Qed.

Lemma small_cases (v : Z) :
  0 <= v < 16 →
  v = 0 ∨ v = 1 ∨ v = 2 ∨ v = 3 ∨ v = 4 ∨ v = 5 ∨ v = 6 ∨ v = 7 ∨ v = 8 ∨ v = 9
  ∨ v = 10 ∨ v = 11 ∨ v = 12 ∨ v = 13 ∨ v = 14 ∨ v = 15.
Proof. lia. Qed.

(** One hexadecimal digit for a number below 16. *)
Lemma toString16_digit (v : Z) :
  0 <= v < 16 →
  Uuid.toString16 v = String (Uuid.hex_digit v) "" ∧ Uuid.is_hex (Uuid.hex_digit v) = true.
Proof.
  intros Hv. destruct (small_cases v Hv) as [-> | Hrest]; [by vm_compute |].
  repeat (destruct Hrest as [-> | Hrest]; [by vm_compute |]).
  subst v. by vm_compute.
Qed.

Lemma variant_digit (r : Z) :
  0 <= r < 16 →
  let d := Uuid.hex_digit (Z.lor (Z.land r 3) 8) in
  Uuid.toString16 (Z.lor (Z.land r 3) 8) = String d ""
  ∧ (Ascii.eqb d "8" || Ascii.eqb d "9" || Ascii.eqb d "a" || Ascii.eqb d "b") = true.
Proof.
  intros Hr. destruct (small_cases r Hr) as [-> | Hrest]; [by vm_compute |].
  repeat (destruct Hrest as [-> | Hrest]; [by vm_compute |]).
  subst r. by vm_compute.
Qed.

Lemma replace_xy_conforms (template : string) (random : nat → Q) (i : nat) :
  (∀ n, (0 <= random n)%Q ∧ (random n < 1)%Q) →
  Uuid.conforms template (Uuid.replace_xy template random i) = true.
Proof.
  intros Hrandom. revert i.
  induction template as [|c template IH]; intros i; [done |].
  pose proof (nibble_range (random i) (proj1 (Hrandom i)) (proj2 (Hrandom i))) as Hr.
  cbn [Uuid.replace_xy].
  destruct (Ascii.eqb c "x") eqn:Hx.
  - cbn [orb]. destruct (toString16_digit _ Hr) as [-> Hhex].
    rewrite append_cons, append_nil. cbn [Uuid.conforms].
    by rewrite Hx, Hhex, IH.
  - destruct (Ascii.eqb c "y") eqn:Hy.
    + cbn [orb]. destruct (variant_digit _ Hr) as [-> Hvariant].
      rewrite append_cons, append_nil. cbn [Uuid.conforms].
      by rewrite Hx, Hy, Hvariant, IH.
    + cbn [orb Uuid.conforms]. by rewrite Hx, Hy, Ascii.eqb_refl, IH.
Qed.

Lemma conforms_length (template s : string) :
  Uuid.conforms template s = true → String.length s = String.length template.
Proof.
  revert s. induction template as [|c template IH]; intros [|d s];
    cbn [Uuid.conforms String.length]; try discriminate; [reflexivity |].
  intros [_ Hrest]%andb_true_iff. by rewrite (IH s Hrest).
Qed.

(** Where the template has a character of its own, the key has it too. *)
Lemma conforms_get (template s : string) (n : nat) (c : ascii) :
  Uuid.conforms template s = true →
  String.get n template = Some c →
  Ascii.eqb c "x" = false → Ascii.eqb c "y" = false →
  String.get n s = Some c.
Proof.
  revert s n. induction template as [|a template IH]; intros [|d s] n;
    cbn [Uuid.conforms String.get]; try discriminate.
  intros [Hhead Hrest]%andb_true_iff. destruct n as [|n].
  - intros [= ->] Hx Hy. rewrite Hx, Hy in Hhead.
    by apply Ascii.eqb_eq in Hhead as ->.
  - by apply IH.
Qed.

Lemma conforms_get_variant (template s : string) (n : nat) :
  Uuid.conforms template s = true →
  String.get n template = Some "y"%char →
  ∃ d, String.get n s = Some d
       ∧ (d = "8" ∨ d = "9" ∨ d = "a" ∨ d = "b")%char.
Proof.
  revert s n. induction template as [|a template IH]; intros [|d s] n;
    cbn [Uuid.conforms String.get]; try discriminate.
  intros [Hhead Hrest]%andb_true_iff. destruct n as [|n].
  - intros [= ->]. change (Ascii.eqb "y" "x") with false in Hhead.
    change (Ascii.eqb "y" "y") with true in Hhead. cbv iota in Hhead.
    exists d. split; [reflexivity |].
    rewrite !orb_true_iff, !Ascii.eqb_eq in Hhead. tauto.
  - by apply IH.
Qed.

(** Whatever [Math.random] returns in its range, a generated key is a
    version-4 UUID in text form: 36 characters, hyphens at positions 8, 13,
    18 and 23, the digit 4 at position 14, one of 8, 9, a, b at position
    19, and lower-case hexadecimal digits everywhere else. *)
Theorem uuidv4_format (random : nat → Q) :
  (∀ n, (0 <= random n)%Q ∧ (random n < 1)%Q) →
  let uuid := Uuid.uuidv4 random in
  String.length uuid = 36%nat
  ∧ Uuid.conforms Uuid.template uuid = true
  ∧ (∀ n, n ∈ [8; 13; 18; 23]%nat → String.get n uuid = Some "-"%char)
  ∧ String.get 14 uuid = Some "4"%char
  ∧ ∃ d, String.get 19 uuid = Some d ∧ (d = "8" ∨ d = "9" ∨ d = "a" ∨ d = "b")%char.
Proof.
  intros Hrandom uuid.
  assert (Hconforms : Uuid.conforms Uuid.template uuid = true)
    by exact (replace_xy_conforms Uuid.template random 0 Hrandom).
  clearbody uuid.
  assert (Htemplate : Uuid.template = "xxxxxxxx-xxxx-4xxx-yxxx-xxxxxxxxxxxx")
    by reflexivity.
  split_and!.
  - rewrite (conforms_length _ _ Hconforms). reflexivity.
  - exact Hconforms.
  - intros n Hn. rewrite !elem_of_cons, elem_of_nil in Hn.
    destruct Hn as [-> | [-> | [-> | [-> | []]]]];
      (apply (conforms_get _ _ _ _ Hconforms); reflexivity).
  - apply (conforms_get _ _ _ _ Hconforms); reflexivity.
  - apply (conforms_get_variant _ _ _ Hconforms). reflexivity.
Qed.

Lemma uuidv4_format_witness :
  let uuid := Uuid.uuidv4 (λ n, if Nat.even n then 1 # 2 else 15 # 16)%Q in
  uuid = "8f8f8f8f-8f8f-48f8-b8f8-f8f8f8f8f8f8" ∧ String.length uuid = 36%nat.
Proof.
  intros uuid. split; [vm_compute; reflexivity |].
  apply (uuidv4_format (λ n, if Nat.even n then 1 # 2 else 15 # 16)%Q).
  intros n. destruct (Nat.even n); unfold Qle, Qlt; simpl; lia.
Defined.

End Keys.

(** ** The raw-HTML endpoint *)

Section RawHtml.

Context `{Runtime}.

Lemma createPage_goes_to url (options : object) authorization post postData :
  emits (λ c, ∀ p target o, c = PageGoto p target o → target = url)
        (Renderer.createPage url options authorization post postData).
Proof.
  unfold Renderer.createPage.
  apply emits_bind; [by apply emits_perform | intros page].
  apply emits_bind; [by apply emits_fire | intros _].
  apply emits_bind; [by apply emits_fire | intros _].
  apply emits_bind; [by apply emits_fire | intros _].
  apply emits_bind; [| intros _].
  { destruct (truthy (get options "emulateMediaType"));
      [by apply emits_perform | apply emits_ret]. }
  apply emits_bind; [| intros _].
  { destruct (truthy (get options "credentials"));
      [by apply emits_perform | apply emits_ret]. }
  apply emits_bind; [| intros _; apply emits_ret].
  apply emits_perform. by intros p target o [= _ <- _].
Qed.

Lemma pdf_goes_to url options authorization post body :
  emits (λ c, ∀ p target o, c = PageGoto p target o → target = url)
        (Renderer.pdf url options authorization post body).
Proof.
  unfold Renderer.pdf. apply with_page_emits; [| | done | done].
  - apply createPage_goes_to.
  - intros page. by apply pdf_render_emits.
Qed.

(** The handler always answers, with 200 or with the error page. The body
    is in the cache, under the fresh key and valid for one minute, from
    before the render. An answer 200 means the key has been removed from
    the cache, the other keys being as the other handlers left them. When
    the render throws the answer is 500 and the handler removes nothing:
    the body stays in the cache until a read or a sweep finds it expired.
    The browser is sent nowhere but to the loopback URL carrying the key. *)
Theorem raw_html_entry_lifetime port random now (query : object) reqBody
    meanwhile htmlCache w :
  let uuid := Uuid.uuidv4 random in
  let target := RawHtmlEndpoint.loopback port uuid in
  let stored := CacheGateway.addToCache now uuid reqBody htmlCache in
  let outcome :=
    run (RawHtmlEndpoint.post_root port random now query reqBody meanwhile htmlCache) w in
  stored !! uuid = Some {| html := reqBody; validUntil := now + 60000 |}
  ∧ (∃ answer htmlCache',
       outcome.1 = Ok (answer, htmlCache')
       ∧ (status answer = 200 ∧ htmlCache' = delete uuid (meanwhile stored)
          ∧ htmlCache' !! uuid = None
          ∨ answer = error_page (TypeError "")))
  ∧ (∀ urlObj name e,
       url_parse target = Ok urlObj →
       QueryGateway.pdf_filename (get query "filename") urlObj = Ok name →
       (Renderer.pdf (VStr target)
          (delete "contentDispositionType" (RawHtmlEndpoint.request_options query))
          (get query "authorization") (get query "post") (get query "body")
          (State _ w [])).1 = Throw e →
       outcome.1 = Ok (error_page e, meanwhile stored))
  ∧ (∀ c p destination o,
       c ∈ trace outcome.2 → c = PageGoto p destination o → destination = VStr target).
Proof.
  intros uuid target stored outcome. split_and!.
  - unfold stored, CacheGateway.addToCache, HtmlCache.addToCache_ttl.
    by rewrite lookup_insert_eq.
  - subst outcome.
    unfold run, RawHtmlEndpoint.post_root, try_catch, mbind, M_bind, bind, lift, ret.
    fold uuid target stored.
    destruct (url_parse target) as [urlObj|e1]; [| eauto 6].
    destruct (QueryGateway.pdf_filename _ urlObj) as [name|e2]; [| eauto 6].
    destruct (Renderer.pdf _ _ _ _ _ _) as [[pdf|e3] st1]; [| eauto 6].
    destruct (contentDisposition _ _) as [disposition|e4]; [| eauto 6].
    simpl. eexists _, _. split; [done |]. left.
    split; [done |]. split; [done |]. apply lookup_delete_eq.
  - intros urlObj name e Hparse Hname Hthrow. subst outcome.
    unfold run, RawHtmlEndpoint.post_root, try_catch, mbind, M_bind, bind, lift, ret.
    fold uuid target stored. rewrite Hparse, Hname.
    destruct (Renderer.pdf _ _ _ _ _ _) as [[pdf|e3] st1]; simpl in *; [done |].
    by injection Hthrow as ->.
  - intros c p destination o Hin ->.
    assert (Hemits : emits (λ c, ∀ p d o, c = PageGoto p d o → d = VStr target)
              (RawHtmlEndpoint.post_root port random now query reqBody meanwhile
                 htmlCache)).
    { unfold RawHtmlEndpoint.post_root. fold uuid target stored.
      apply emits_try_catch; [| intros; apply emits_ret |].
      - apply emits_bind; [apply emits_lift | intros; apply emits_lift].
      - intros name. apply emits_try_catch; [| intros; apply emits_ret |].
        + apply pdf_goes_to.
        + intros pdf. apply emits_try_catch;
            [apply emits_lift | intros; apply emits_ret | intros; apply emits_ret]. }
    exact (emits_run _ _ _ _ Hemits Hin p destination o eq_refl).
Qed.

(** Unless the caller names the file, the PDF of a submitted body is named
    after the host of the loopback URL (root path), never after the body
    or its key; the answer carries the rendered buffer, its length, and the
    disposition computed for that name, "attachment" by default. *)
Theorem raw_html_answer port random now (query : object) reqBody meanwhile htmlCache w
    urlObj pdf st1 disposition :
  let uuid := Uuid.uuidv4 random in
  let target := RawHtmlEndpoint.loopback port uuid in
  let stored := CacheGateway.addToCache now uuid reqBody htmlCache in
  let name := QueryGateway.with_pdf_extension (hostname urlObj) in
  truthy (get query "filename") = false →
  url_parse target = Ok urlObj →
  pathname urlObj = "/" →
  Renderer.pdf (VStr target)
    (delete "contentDispositionType" (RawHtmlEndpoint.request_options query))
    (get query "authorization") (get query "post") (get query "body")
    (State _ w []) = (Ok pdf, st1) →
  contentDisposition name
    (VObj {["type" := js_or (get query "contentDispositionType") (VStr "attachment")]})
  = Ok disposition →
  run (RawHtmlEndpoint.post_root port random now query reqBody meanwhile htmlCache) w
  = (Ok (RawHtmlEndpoint.pdf_response pdf disposition, delete uuid (meanwhile stored)),
     st1)
  ∧ sent (RawHtmlEndpoint.pdf_response pdf disposition) = SendBuffer pdf
  ∧ headers (RawHtmlEndpoint.pdf_response pdf disposition) !! "Content-Length"
    = Some (buffer_length pdf)
  ∧ headers (RawHtmlEndpoint.pdf_response pdf disposition) !! "Content-Disposition"
    = Some (VStr disposition).
Proof.
  intros uuid target stored name Hfilename Hparse Hroot Hpdf Hdisposition.
  assert (Htype : get (RawHtmlEndpoint.request_options query) "contentDispositionType"
                  = get query "contentDispositionType").
  { unfold get, RawHtmlEndpoint.request_options. by rewrite !lookup_delete_ne. }
  split; [| by simplify_map_eq].
  unfold run, RawHtmlEndpoint.post_root, try_catch, mbind, M_bind, bind, lift, ret.
  fold uuid target stored. rewrite Hparse.
  unfold QueryGateway.pdf_filename, QueryGateway.derived_filename.
  rewrite Hfilename, Hroot. simpl negb. cbv iota.
  change (String.eqb "/" "/") with true. cbv iota. fold name.
  rewrite Hpdf, Htype, Hdisposition. reflexivity.
Qed.

End RawHtml.

Lemma raw_html_entry_lifetime_witness :
  let R := Demo.scripted Demo.no_printing in
  let random : nat → Q := λ _, (1 # 2)%Q in
  let outcome :=
    run (RawHtmlEndpoint.post_root "3000" random 0 ∅ (VStr "<p>hi</p>") id ∅) 0%nat in
  outcome.1
  = Ok (error_page Demo.failure,
        id (CacheGateway.addToCache 0 (Uuid.uuidv4 random) (VStr "<p>hi</p>") ∅)).
Proof.
  intros R random outcome.
  pose proof (@raw_html_entry_lifetime R "3000" random 0 ∅ (VStr "<p>hi</p>") id ∅
                0%nat) as (_ & _ & Hfailed & _).
  eapply Hfailed.
  - vm_compute. reflexivity.
  - vm_compute. reflexivity.
  - vm_compute. reflexivity.
Defined.

Lemma raw_html_answer_witness :
  let R := Demo.scripted Demo.healthy in
  let random : nat → Q := λ _, (1 # 2)%Q in
  let outcome :=
    run (RawHtmlEndpoint.post_root "3000" random 0 ∅ (VStr "<p>hi</p>") id ∅) 0%nat in
  ∃ disposition st,
    outcome
    = (Ok (RawHtmlEndpoint.pdf_response (Demo.save [Demo.cover; Demo.page2; Demo.page3])
             disposition, ∅), st).
Proof.
  intros R random outcome.
  edestruct (@raw_html_answer R "3000" random 0 ∅ (VStr "<p>hi</p>") id ∅ 0%nat)
    as (Hrun & _);
    [ reflexivity | vm_compute; reflexivity | reflexivity
    | vm_compute; reflexivity | vm_compute; reflexivity | ].
  eexists _, _. exact Hrun.
Defined.

(** ** Intercepted requests (src/unnamed/part_000, lines 187-199) *)

Section Requests.

Context `{Runtime}.

(** Every intercepted request is continued with its own headers, two of
    them apart: [Authorization] carries the caller's token when that is a
    non-empty string and is left as the page sent it when no token was
    given; only the request for the document becomes a POST with the
    stringified body and a JSON content type, and only when [post] is
    [true]; the requests for sub-resources keep their method, their body
    and their content type. *)
Theorem request_rewriting (stringify : value → value)
    (authorization post postData : value) (headers : object) (resourceType : string) :
  let overrides :=
    Interception.on_request stringify authorization post postData headers resourceType in
  ∃ sent : object,
    overrides !! "headers" = Some (VObj sent)
    ∧ (∀ name, name ≠ "Authorization" → name ≠ "Content-Type" →
         sent !! name = headers !! name)
    ∧ (∀ token, authorization = VStr token → token ≠ "" →
         sent !! "Authorization" = Some (VStr token))
    ∧ (authorization = VUndefined ∨ authorization = VStr "" →
         sent !! "Authorization" = headers !! "Authorization")
    ∧ (post = VBool true → resourceType = "document" →
         overrides !! "method" = Some (VStr "POST")
         ∧ overrides !! "postData" = Some (stringify (param_default postData (VStr "")))
         ∧ sent !! "Content-Type" = Some (VStr "application/json"))
    ∧ (post = VUndefined ∨ post = VBool false ∨ resourceType ≠ "document" →
         overrides !! "method" = None
         ∧ overrides !! "postData" = None
         ∧ sent !! "Content-Type" = headers !! "Content-Type").
Proof.
  intros overrides. subst overrides. unfold Interception.on_request.
  set (as_post := loosely_true (param_default post (VBool false))
                  && String.eqb resourceType "document").
  set (auth := negb (loosely_empty (param_default authorization (VStr "")))).
  assert (Htoken : ∀ token, authorization = VStr token → token ≠ "" →
                     auth = true ∧ param_default authorization (VStr "") = VStr token).
  { intros token -> Hne. subst auth. simpl.
    by apply String.eqb_neq in Hne as ->. }
  assert (Hnone : authorization = VUndefined ∨ authorization = VStr "" → auth = false).
  { by intros [-> | ->]. }
  assert (Hpost : post = VBool true → resourceType = "document" → as_post = true).
  { by intros -> ->. }
  assert (Hplain : post = VUndefined ∨ post = VBool false ∨ resourceType ≠ "document" →
                   as_post = false).
  { subst as_post. intros [-> | [-> | Hne]]; try done.
    apply String.eqb_neq in Hne as ->. apply andb_false_r. }
  clearbody as_post auth.
  set (typed := if as_post then <["Content-Type" := VStr "application/json"]> headers
                else headers).
  exists (if auth then <["Authorization" := param_default authorization (VStr "")]> typed
          else typed).
  subst typed. split_and!.
  - destruct as_post; simplify_map_eq; reflexivity.
  - intros name Hauth Htype. destruct as_post, auth; by simplify_map_eq.
  - intros token Hgiven Hne. destruct (Htoken token Hgiven Hne) as [-> ->].
    destruct as_post; by simplify_map_eq.
  - intros Hgiven. rewrite (Hnone Hgiven). destruct as_post; by simplify_map_eq.
  - intros Hgiven Hdocument. rewrite (Hpost Hgiven Hdocument).
    destruct auth; by simplify_map_eq.
  - intros Hgiven. rewrite (Hplain Hgiven). destruct auth; by simplify_map_eq.
Qed.

End Requests.

Lemma request_rewriting_witness :
  let R := Demo.scripted Demo.healthy in
  let page_headers : object :=
    {[ "Accept" := VStr "text/html"; "Authorization" := VStr "Basic abc" ]} in
  let overrides :=
    Interception.on_request (λ v, v) (VStr "Bearer t") (VBool true) (VStr "{}")
      page_headers "document" in
  ∃ sent : object,
    overrides !! "headers" = Some (VObj sent)
    ∧ sent !! "Accept" = Some (VStr "text/html")
    ∧ sent !! "Authorization" = Some (VStr "Bearer t")
    ∧ overrides !! "method" = Some (VStr "POST").
Proof.
  intros R page_headers overrides.
  destruct (@request_rewriting R (λ v, v) (VStr "Bearer t") (VBool true) (VStr "{}")
              page_headers "document")
    as (sent & Hsent & Hkept & Htoken & _ & Hpost & _).
  exists sent. split; [exact Hsent |].
  split; [rewrite Hkept; [reflexivity | discriminate | discriminate] |].
  split; [apply (Htoken "Bearer t"); [reflexivity | discriminate] |].
  apply Hpost; reflexivity.
Defined.
